(** * VAP MCP proxy: dispatcher, tool normalizers and line transport

    A shallow embedding of [mcp/vap_mcp_proxy.py].  Python values decoded
    from JSON are an inductive type; handlers run in a small monad that
    threads the history of remote HTTP calls and may raise a Python
    exception.  The remote service, the JSON codec, [str.strip] and the
    text the interpreter gives to exceptions, floats and containers are
    parameters of the development.

    Left out: logging (it never affects control flow), the request
    headers and timeouts of the HTTP client, the socket work of the HTTP
    server, and the command line.  A string of the model is the UTF-8
    encoding of a Python [str]; characters are counted and cut on that
    encoding. *)

From Stdlib Require Import ZArith String List Ascii Bool SpecFloat DecimalString Lia.
Import ListNotations.
Local Open Scope string_scope.
Local Open Scope Z_scope.

(** ** Values *)

(** What [json.loads] can produce.  A [dict] keeps its insertion order, as
    Python's does; keys are strings. *)
#[warnings="-register-all"]
Inductive value : Type :=
| VNone
| VBool (b : bool)
| VInt (n : Z)
| VFloat (f : spec_float)
| VStr (s : string)
| VList (l : list value)
| VDict (d : list (string * value)).

Definition dict := list (string * value).

Fixpoint dict_get (k : string) (d : dict) : option value :=
  match d with
  | [] => None
  | (k', v) :: d' => if String.eqb k k' then Some v else dict_get k d'
  end.

Definition dict_has (k : string) (d : dict) : bool :=
  match dict_get k d with Some _ => true | None => false end.

(** [d[k] = v]: overwrite in place, or append a new key at the end. *)
Fixpoint dict_set (k : string) (v : value) (d : dict) : dict :=
  match d with
  | [] => [(k, v)]
  | (k', v') :: d' =>
      if String.eqb k k' then (k', v) :: d' else (k', v') :: dict_set k v d'
  end.

Definition type_name (v : value) : string :=
  match v with
  | VNone => "NoneType"
  | VBool _ => "bool"
  | VInt _ => "int"
  | VFloat _ => "float"
  | VStr _ => "str"
  | VList _ => "list"
  | VDict _ => "dict"
  end.

(** Python truthiness ([if x], [not x], [x or y], [x and y]). *)
Definition truthy (v : value) : bool :=
  match v with
  | VNone => false
  | VBool b => b
  | VInt n => negb (n =? 0)
  | VFloat (S754_zero _) => false
  | VFloat _ => true
  | VStr s => negb (String.eqb s "")
  | VList l => match l with [] => false | _ => true end
  | VDict d => match d with [] => false | _ => true end
  end.

Definition py_or (a b : value) : value := if truthy a then a else b.

Definition is_None (v : value) : bool :=
  match v with VNone => true | _ => false end.

Definition isinstance_str (v : value) : bool :=
  match v with VStr _ => true | _ => false end.

Definition isinstance_dict (v : value) : bool :=
  match v with VDict _ => true | _ => false end.

Definition isinstance_list (v : value) : bool :=
  match v with VList _ => true | _ => false end.

(** [x == z] for a float [x] and an integer [z]: Python compares the exact
    mathematical values. *)
Definition float_eq_Z (f : spec_float) (z : Z) : bool :=
  match f with
  | S754_zero _ => z =? 0
  | S754_finite s m e =>
      let zm := if s then Z.neg m else Z.pos m in
      if 0 <=? e then zm * 2 ^ e =? z else zm =? z * 2 ^ (- e)
  | _ => false
  end.

(** [v == z] for an [int] literal [z] ([True == 1] and [4.0 == 4] hold). *)
Definition py_eq_int (v : value) (z : Z) : bool :=
  match v with
  | VInt n => n =? z
  | VBool b => (if b then 1 else 0) =? z
  | VFloat f => float_eq_Z f z
  | _ => false
  end.

(** [v == s] for a [str] literal [s]. *)
Definition py_eq_str (v : value) (s : string) : bool :=
  match v with
  | VStr t => String.eqb t s
  | _ => false
  end.

(** [v in (z1, z2, ...)] and [v in (s1, s2, ...)] on tuples of literals. *)
Definition py_in_ints (v : value) (zs : list Z) : bool :=
  existsb (py_eq_int v) zs.

Definition py_in_strs (v : value) (ss : list string) : bool :=
  existsb (py_eq_str v) ss.

(** ** Strings *)

Definition LF : string := String (ascii_of_nat 10) EmptyString.

(** [sep.join(parts)] *)
Fixpoint join (sep : string) (parts : list string) : string :=
  match parts with
  | [] => ""
  | [p] => p
  | p :: ps => p ++ sep ++ join sep ps
  end.

(** [needle in hay] on two strings. *)
Fixpoint is_substring (needle hay : string) : bool :=
  if prefix needle hay then true
  else match hay with
       | EmptyString => false
       | String _ hay' => is_substring needle hay'
       end.

Definition str_of_Z (n : Z) : string := NilZero.string_of_int (Z.to_int n).

(** A byte of the form 10xxxxxx continues the character before it. *)
Definition is_continuation (c : ascii) : bool :=
  let n := N_of_ascii c in ((128 <=? n) && (n <? 192))%N.

(** [len(s)]: the number of characters. *)
Fixpoint char_count (s : string) : nat :=
  match s with
  | EmptyString => O
  | String c s' =>
      if is_continuation c then char_count s' else S (char_count s')
  end.

(** [s[:n]]: the first [n] characters. *)
Fixpoint take_chars (n : nat) (s : string) : string :=
  match s with
  | EmptyString => EmptyString
  | String c s' =>
      if is_continuation c then String c (take_chars n s')
      else match n with
           | O => EmptyString
           | S n' => String c (take_chars n' s')
           end
  end.

(** ** Exceptions *)

Inductive exn : Type :=
| AttributeError (type_of_object attribute : string)
| TypeError (operation type_of_operand : string)
| KeyError (key : string)
| IndexError
| RecursionError
| ValueError (text : string).

(** What [json.loads] does on a text: it returns the decoded value, raises
    [JSONDecodeError], or raises another exception ([RecursionError] on
    deep nesting, [ValueError] on an oversized number). *)
Inductive loads_outcome : Type :=
| Decoded (v : value)
| Undecodable
| LoadsRaised (e : exn).

(** ** The remote service *)

(** One outbound HTTP call.  [PostMcp] is a POST below the tool-protocol
    base [API_URL], [PostV3] and [GetV3] a POST and a GET below the
    task/billing base [API_BASE_URL]. *)
Inductive remote_call : Type :=
| PostMcp (endpoint : string) (payload : value)
| PostV3 (endpoint : string) (payload : value)
| GetV3 (endpoint : string).

(** The body of a failing HTTP response, as the exception exposes it:
    [response.json()] ([None] when it raises) and [response.text]. *)
Record failed_response : Type := {
  response_json : option value;
  response_text : string
}.

(** An exception raised by the HTTP client: [str(e)] and [e.response]. *)
Record http_exc : Type := {
  exc_str : string;
  exc_response : option failed_response
}.

(** What the [try] block of a client function observes: the decoded body
    of a 2xx response, or an exception (transport failure, non-2xx status
    through [raise_for_status], or a body that fails to decode). *)
Inductive http_outcome : Type :=
| Responded (body : value)
| Raised (e : http_exc).

(** ** The handler monad *)

(** State: the remote calls made so far, oldest first.  Result: a raised
    exception or a value. *)
Definition M (A : Type) : Type :=
  list remote_call -> (exn + A) * list remote_call.

Definition ret {A : Type} (a : A) : M A := fun calls => (inr a, calls).

Definition raise {A : Type} (e : exn) : M A := fun calls => (inl e, calls).

Definition bind {A B : Type} (m : M A) (k : A -> M B) : M B :=
  fun calls =>
    match m calls with
    | (inl e, calls') => (inl e, calls')
    | (inr a, calls') => k a calls'
    end.

(** [try: body / except Exception as e: handler(e)] *)
Definition try_except {A : Type} (body : M A) (handler : exn -> M A) : M A :=
  fun calls =>
    match body calls with
    | (inl e, calls') => handler e calls'
    | (inr a, calls') => (inr a, calls')
    end.

Notation "x <- m ;; k" := (bind m (fun x => k))
  (at level 61, m at next level, right associativity).

(** ** Operations that may raise *)

(** [obj.get(k, default)] *)
Definition py_get (obj : value) (k : string) (default : value) : M value :=
  match obj with
  | VDict d => ret (match dict_get k d with Some v => v | None => default end)
  | _ => raise (AttributeError (type_name obj) "get")
  end.

(** [method.startswith(p)] *)
Definition py_startswith (obj : value) (p : string) : M bool :=
  match obj with
  | VStr s => ret (prefix p s)
  | _ => raise (AttributeError (type_name obj) "startswith")
  end.

(** [s in container] for a [str] literal [s]: key membership in a dict,
    element membership in a list, substring test in a str. *)
Definition py_contains (s : string) (container : value) : M bool :=
  match container with
  | VDict d => ret (dict_has s d)
  | VList l => ret (existsb (fun x => py_eq_str x s) l)
  | VStr t => ret (is_substring s t)
  | _ => raise (TypeError "argument is not iterable" (type_name container))
  end.

(** [container[s]] for a [str] literal [s]. *)
Definition py_getitem (container : value) (s : string) : M value :=
  match container with
  | VDict d =>
      match dict_get s d with
      | Some v => ret v
      | None => raise (KeyError s)
      end
  | VList _ | VStr _ =>
      raise (TypeError "indices must be integers" (type_name container))
  | _ => raise (TypeError "object is not subscriptable" (type_name container))
  end.

(** [len(x)] and [x[0]] *)
Definition py_len (x : value) : M Z :=
  match x with
  | VList l => ret (Z.of_nat (length l))
  | VDict d => ret (Z.of_nat (length d))
  | VStr s => ret (Z.of_nat (char_count s))
  | _ => raise (TypeError "object has no len()" (type_name x))
  end.

Definition py_first (x : value) : M value :=
  match x with
  | VList (v :: _) => ret v
  | VList [] => raise IndexError
  | _ => raise (TypeError "object is not subscriptable by 0" (type_name x))
  end.

(** [table.get(key, default)] on a dict with [int] keys: a list or a dict
    is unhashable, a number finds the key it equals. *)
Definition table_get (table : list (Z * value)) (key default : value) : M value :=
  match key with
  | VList _ | VDict _ => raise (TypeError "unhashable type" (type_name key))
  | _ =>
      ret (match find (fun kv => py_eq_int key (fst kv)) table with
           | Some kv => snd kv
           | None => default
           end)
  end.

(** ** Configuration *)

(** Video pricing tables; the amounts are the binary64 values of the
    literals 2.40, 3.60, 4.80 and 1.20, 1.80, 2.40. *)
Definition float_1_20 : spec_float := S754_finite false 5404319552844595 (-52).
Definition float_1_80 : spec_float := S754_finite false 8106479329266893 (-52).
Definition float_2_40 : spec_float := S754_finite false 5404319552844595 (-51).
Definition float_3_60 : spec_float := S754_finite false 8106479329266893 (-51).
Definition float_4_80 : spec_float := S754_finite false 5404319552844595 (-50).

Definition VIDEO_COSTS_WITH_AUDIO : list (Z * value) :=
  [(4, VFloat float_2_40); (6, VFloat float_3_60); (8, VFloat float_4_80)].

Definition VIDEO_COSTS_NO_AUDIO : list (Z * value) :=
  [(4, VFloat float_1_20); (6, VFloat float_1_80); (8, VFloat float_2_40)].

(** ** JSON-RPC envelopes *)

Definition create_response (id result : value) : value :=
  VDict [("jsonrpc", VStr "2.0"); ("id", id); ("result", result)].

Definition create_error (id : value) (code : Z) (message : string) : value :=
  VDict [("jsonrpc", VStr "2.0"); ("id", id);
         ("error", VDict [("code", VInt code); ("message", VStr message)])].

(** A tool result: [{"content": [{"type": "text", "text": text}]}], with
    ["isError": True] in front when the tool's outcome is an error. *)
Definition text_content (text : string) : value :=
  VList [VDict [("type", VStr "text"); ("text", VStr text)]].

Definition tool_result (text : string) : value :=
  VDict [("content", text_content text)].

Definition tool_error (text : string) : value :=
  VDict [("isError", VBool true); ("content", text_content text)].

(** ** A sample world

    One instance of the parameters of the development, to run the program
    on concrete inputs. *)
Module Sample.

(** A remote that answers every call with 402, the way the HTTP client
    reports a non-2xx status: the exception carries the response, whose
    body holds a structured detail. *)
Definition payment_required : http_exc :=
  {| exc_str := "Client error '402 Payment Required'";
     exc_response :=
       Some {| response_json :=
                 Some (VDict [("detail",
                               VDict [("message", VStr "Insufficient balance")])]);
               response_text := "Insufficient balance" |} |}.

Definition remote_down (calls : list remote_call) (c : remote_call) : http_outcome :=
  Raised payment_required.

(** A remote that answers every call with the same body. *)
Definition remote_body (body : value) (calls : list remote_call)
    (c : remote_call) : http_outcome :=
  Responded body.

Definition repr (v : value) : string := "<" ++ type_name v ++ ">".

Definition exc_text (e : exn) : string :=
  match e with
  | AttributeError t a => "'" ++ t ++ "' object has no attribute '" ++ a ++ "'"
  | TypeError op t => op ++ ": '" ++ t ++ "'"
  | KeyError k => "'" ++ k ++ "'"
  | IndexError => "list index out of range"
  | RecursionError => "maximum recursion depth exceeded"
  | ValueError text => text
  end.

(** Messages and tool arguments. *)
Definition message (id method params : value) : dict :=
  [("jsonrpc", VStr "2.0"); ("id", id); ("method", method); ("params", params)].

Definition notification (method : value) : dict :=
  [("jsonrpc", VStr "2.0"); ("method", method)].

Definition tool_call (name : string) (arguments : dict) : value :=
  VDict [("name", VStr name); ("arguments", VDict arguments)].

(** A line of [n] opening brackets. *)
Fixpoint nested (n : nat) : string :=
  match n with
  | O => EmptyString
  | S n' => String "["%char (nested n')
  end.

(** A codec on four lines: a notification, a request, a line nested too
    deep for the decoder, and any other line, which does not decode. *)
Definition loads (line : string) : loads_outcome :=
  if String.eqb line "notification" then
    Decoded (VDict (notification (VStr "notifications/initialized")))
  else if String.eqb line "request" then
    Decoded (VDict (message (VInt 7) (VStr "foo/bar") VNone))
  else if String.eqb line (nested 2000) then LoadsRaised RecursionError
  else Undecodable.

Definition dumps (v : value) : string :=
  match v with
  | VDict d =>
      match dict_get "error" d with
      | Some (VDict e) =>
          match dict_get "code" e with
          | Some (VInt code) => "error " ++ str_of_Z code
          | _ => "error"
          end
      | _ => "result"
      end
  | _ => "value"
  end.

Definition strip (line : string) : string := line.

End Sample.

Section Proxy.

(** The world outside the program. *)

(** The remote service: the outcome of a call, given the calls made
    before it. *)
Variable remote : list remote_call -> remote_call -> http_outcome.

(** [str(x)] of a float, a list or a dict. *)
Variable repr_other : value -> string.

(** [str(e)] of an exception raised by the interpreter. *)
Variable str_exc : exn -> string.

(** [json.loads], [json.dumps], [str.strip]. *)
Variable json_loads : string -> loads_outcome.
Variable json_dumps : value -> string.
Variable py_strip : string -> string.

(** [str(v)], as an f-string renders [{v}]. *)
Definition py_str (v : value) : string :=
  match v with
  | VNone => "None"
  | VBool true => "True"
  | VBool false => "False"
  | VInt n => str_of_Z n
  | VStr s => s
  | VFloat _ | VList _ | VDict _ => repr_other v
  end.

(** ** HTTP client *)

(** Perform one call and record it. *)
Definition http (c : remote_call) : M http_outcome :=
  fun calls => (inr (remote calls c), (calls ++ [c])%list).

Definition make_request (endpoint : string) (payload : value) : M value :=
  o <- http (PostMcp endpoint (py_or payload (VDict []))) ;;
  match o with
  | Responded body => ret body
  | Raised e => ret (VDict [("error", VStr (exc_str e))])
  end.

(** The detail extracted from a failing response (D#509).  The raw text
    is cut to its first 500 characters. *)
Definition v3_error_detail (e : http_exc) : value :=
  match exc_response e with
  | None => VStr (exc_str e)
  | Some response =>
      match response_json response with
      | Some (VDict error_body) =>
          let detail :=
            match dict_get "detail" error_body with
            | Some d => d
            | None => VDict []
            end in
          match detail with
          | VDict dd =>
              match dict_get "message" dd with
              | Some m => m
              | None => VStr (py_str detail)
              end
          | VStr _ => detail
          | _ => VStr (py_str (VDict error_body))
          end
      | Some _ => VStr (exc_str e)
      | None =>
          if negb (String.eqb (response_text response) "")
          then VStr (take_chars 500 (response_text response))
          else VStr (exc_str e)
      end
  end.

Definition make_v3_request (endpoint : string) (payload : value) : M value :=
  o <- http (PostV3 endpoint (py_or payload (VDict []))) ;;
  match o with
  | Responded body => ret body
  | Raised e => ret (VDict [("error", v3_error_detail e)])
  end.

Definition make_v3_get_request (endpoint : string) : M value :=
  o <- http (GetV3 endpoint) ;;
  match o with
  | Responded body => ret body
  | Raised e => ret (VDict [("error", VStr (exc_str e))])
  end.

Notation "' pat <- m ;; k" := (bind m (fun x => match x with pat => k end))
  (at level 61, pat pattern, m at next level, right associativity).

(** ** MCP method handlers *)

Definition handle_initialize (params : value) : M value :=
  protocolVersion <- py_get params "protocolVersion" VNone ;;
  capabilities <- py_get params "capabilities" (VDict []) ;;
  clientInfo <- py_get params "clientInfo" (VDict []) ;;
  make_request "/initialize"
    (VDict [("protocolVersion", protocolVersion);
            ("capabilities", capabilities);
            ("clientInfo", clientInfo)]).

Definition handle_tools_list (params : value) : M value :=
  make_request "/tools/list" (VDict []).

(** Validation of the video parameters (Veo 3.1). *)
Definition validate_duration (duration : value) : value :=
  if negb (py_in_ints duration [4; 6; 8]) then VInt 8 else duration.

Definition validate_aspect_ratio (aspect_ratio : value) : value :=
  if negb (py_in_strs aspect_ratio ["16:9"; "9:16"]) then VStr "16:9"
  else aspect_ratio.

Definition validate_resolution (resolution : value) : value :=
  if negb (py_in_strs resolution ["720p"; "1080p"]) then VStr "720p"
  else resolution.

(** The text of a created video task. *)
Definition video_created_text
    (task_id duration aspect_ratio resolution generate_audio estimated_cost : value)
    : string :=
  "Video generation task created (Veo 3.1)!" ++ LF ++ LF ++
  "Task ID: " ++ py_str task_id ++ LF ++
  "Duration: " ++ py_str duration ++ " seconds" ++ LF ++
  "Aspect Ratio: " ++ py_str aspect_ratio ++ LF ++
  "Resolution: " ++ py_str resolution ++ LF ++
  "Audio: " ++ (if truthy generate_audio then "Yes" else "No") ++ LF ++
  "Estimated Cost: $" ++ py_str estimated_cost ++ LF ++ LF ++
  "Use get_task with this task_id to check status and get the video URL when complete.".

(** The [params] mapping of the task-creation request. *)
Definition video_params
    (prompt duration aspect_ratio generate_audio resolution negative_prompt : value)
    : dict :=
  let params :=
    [("prompt", prompt);
     ("duration", duration);
     ("aspect_ratio", aspect_ratio);
     ("generate_audio", generate_audio);
     ("resolution", resolution)] in
  if truthy negative_prompt
  then dict_set "negative_prompt" negative_prompt params
  else params.

(** The rest of [_handle_generate_video] once the task-creation request
    has returned [response]. *)
Definition generate_video_reply
    (response duration aspect_ratio resolution generate_audio : value) : M value :=
  has_error <- py_contains "error" response ;;
  if has_error then
    e <- py_getitem response "error" ;;
    ret (tool_error ("Error: " ++ py_str e))
  else
    task_id <- py_get response "task_id" (VStr "unknown") ;;
    let cost_table :=
      if truthy generate_audio then VIDEO_COSTS_WITH_AUDIO
      else VIDEO_COSTS_NO_AUDIO in
    table_cost <- table_get cost_table duration (VFloat float_4_80) ;;
    estimated_cost <- py_get response "estimated_cost" table_cost ;;
    ret (tool_result
           (video_created_text task_id duration aspect_ratio resolution
                               generate_audio estimated_cost)).

Definition _handle_generate_video (arguments : value) : M value :=
  prompt <- py_get arguments "prompt" (VStr "") ;;
  duration <- py_get arguments "duration" (VInt 8) ;;
  aspect_ratio <- py_get arguments "aspect_ratio" (VStr "16:9") ;;
  generate_audio <- py_get arguments "generate_audio" (VBool true) ;;
  resolution <- py_get arguments "resolution" (VStr "720p") ;;
  negative_prompt <- py_get arguments "negative_prompt" (VStr "") ;;
  if negb (truthy prompt) then
    ret (tool_error "Error: prompt is required")
  else
    let duration := validate_duration duration in
    let aspect_ratio := validate_aspect_ratio aspect_ratio in
    let resolution := validate_resolution resolution in
    let params :=
      video_params prompt duration aspect_ratio generate_audio resolution
                   negative_prompt in
    response <- make_v3_request "/v3/tasks"
                  (VDict [("type", VStr "video"); ("params", VDict params)]) ;;
    generate_video_reply response duration aspect_ratio resolution generate_audio.

(** The locals [duration] and [cost] of [_handle_estimate_video_cost] once
    the lookup is done. *)
Definition estimate_video_cost_locals (arguments : value) : M (value * value) :=
  duration <- py_get arguments "duration" (VInt 8) ;;
  generate_audio <- py_get arguments "generate_audio" (VBool true) ;;
  let duration := validate_duration duration in
  let cost_table :=
    if truthy generate_audio then VIDEO_COSTS_WITH_AUDIO
    else VIDEO_COSTS_NO_AUDIO in
  cost <- table_get cost_table duration (VFloat float_4_80) ;;
  ret (duration, cost).

Definition estimate_video_cost_text : string :=
  "Video Generation Cost: $1.96 USD (fixed price)" ++ LF ++ LF ++
  "Provider: Veo 3.1" ++ LF ++
  "Requires: Tier 2+".

Definition _handle_estimate_video_cost (arguments : value) : M value :=
  '(duration, cost) <- estimate_video_cost_locals arguments ;;
  ret (tool_result estimate_video_cost_text).

(** [a or obj.get(k)], the right operand evaluated only when needed. *)
Definition or_get (a obj : value) (k : string) : M value :=
  if truthy a then ret a else py_get obj k VNone.

(** The output URLs found in a task's [result]: audio, video, image. *)
Definition extract_urls (result : value) : M (value * value * value) :=
  v <- py_get result "video_url" VNone ;;
  video_url <- or_get v result "output_url" ;;
  i <- py_get result "image_url" VNone ;;
  image_url <- or_get i result "output_url" ;;
  items <- py_get result "items" (VList []) ;;
  nonempty <- (if truthy items && isinstance_list items
               then n <- py_len items ;; ret (0 <? n)
               else ret false) ;;
  if (nonempty : bool) then
    first <- py_first items ;;
    audio_url <- py_get first "audio_url" VNone ;;
    if negb (truthy image_url) then
      first <- py_first items ;;
      image_url <- py_get first "image_url" VNone ;;
      ret (audio_url, video_url, image_url)
    else ret (audio_url, video_url, image_url)
  else ret (VNone, video_url, image_url).

(** [lines.append(line)] *)
Definition append (lines : list string) (line : string) : list string :=
  List.app lines [line].

(** The lines of the task summary. *)
Definition task_lines
    (task_id task_type status estimated_cost actual_cost error_message
     audio_url video_url image_url : value) : list string :=
  let lines :=
    ["Task: " ++ py_str task_id;
     "Type: " ++ py_str task_type;
     "Status: " ++ py_str status;
     "Estimated Cost: $" ++ py_str estimated_cost] in
  let lines :=
    if truthy actual_cost && negb (py_eq_str actual_cost "N/A")
    then append lines ("Actual Cost: $" ++ py_str actual_cost)
    else lines in
  if py_eq_str status "completed" then
    if truthy audio_url then
      append lines (LF ++ "🎵 Audio URL: " ++ py_str audio_url)
    else if truthy video_url then
      append lines (LF ++ "🎬 Video URL: " ++ py_str video_url)
    else if truthy image_url then
      append lines (LF ++ "🖼️ Image URL: " ++ py_str image_url)
    else lines
  else if py_eq_str status "failed" && truthy error_message then
    append lines (LF ++ "❌ Error: " ++ py_str error_message)
  else if py_in_strs status ["pending"; "queued"; "executing"] then
    append lines (LF ++ "⏳ Task is still " ++ py_str status ++
               ". Check again shortly.")
  else lines.

(** The rest of [_handle_get_task] once the fetch has returned
    [response]. *)
Definition get_task_reply (task_id response : value) : M value :=
  has_error <- py_contains "error" response ;;
  if has_error then
    e <- py_getitem response "error" ;;
    ret (tool_error ("Error: " ++ py_str e))
  else
    status <- py_get response "status" (VStr "unknown") ;;
    task_type <- py_get response "type" (VStr "unknown") ;;
    estimated_cost <- py_get response "estimated_cost" (VStr "N/A") ;;
    actual_cost <- py_get response "actual_cost" (VStr "N/A") ;;
    error_message <- py_get response "error_message" VNone ;;
    r <- py_get response "result" (VDict []) ;;
    let result := py_or r (VDict []) in
    '(audio_url, video_url, image_url) <- extract_urls result ;;
    ret (tool_result
           (join LF
              (task_lines task_id task_type status estimated_cost
                          actual_cost error_message
                          audio_url video_url image_url))).

Definition _handle_get_task (arguments : value) : M value :=
  task_id <- py_get arguments "task_id" (VStr "") ;;
  if negb (truthy task_id) then
    ret (tool_error "Error: task_id is required")
  else
    response <- make_v3_get_request ("/v3/tasks/" ++ py_str task_id) ;;
    get_task_reply task_id response.

Definition handle_tools_call (params : value) : M value :=
  tool_name <- py_get params "name" (VStr "") ;;
  arguments <- py_get params "arguments" (VDict []) ;;
  if py_eq_str tool_name "generate_video" then
    _handle_generate_video arguments
  else if py_eq_str tool_name "estimate_video_cost" then
    _handle_estimate_video_cost arguments
  else if py_eq_str tool_name "get_task" then
    _handle_get_task arguments
  else
    make_request "/tools/call"
      (VDict [("name", tool_name); ("arguments", arguments)]).

Definition handle_resources_list (params : value) : M value :=
  make_request "/resources/list" (VDict []).

Definition handle_resources_read (params : value) : M value :=
  uri <- py_get params "uri" VNone ;;
  make_request "/resources/read" (VDict [("params", VDict [("uri", uri)])]).

(** Method routing table. *)
Definition METHOD_HANDLERS : list (string * (value -> M value)) :=
  [("initialize", handle_initialize);
   ("tools/list", handle_tools_list);
   ("tools/call", handle_tools_call);
   ("resources/list", handle_resources_list);
   ("resources/read", handle_resources_read)].

Fixpoint table_find {A : Type} (k : string) (t : list (string * A)) : option A :=
  match t with
  | [] => None
  | (k', a) :: t' => if String.eqb k k' then Some a else table_find k t'
  end.

(** [METHOD_HANDLERS.get(method)]: a list or a dict is unhashable, a
    value that is not a string equals no key. *)
Definition METHOD_HANDLERS_get (method : value) : M (option (value -> M value)) :=
  match method with
  | VStr m => ret (table_find m METHOD_HANDLERS)
  | VList _ | VDict _ => raise (TypeError "unhashable type" (type_name method))
  | _ => ret None
  end.

(** ** JSON-RPC protocol *)

(** The envelope for a handler's result: an error envelope when the
    result has a string-valued ["error"] member, a success envelope
    otherwise. *)
Definition envelope_of_result (request_id result : value) : M value :=
  has_error <- py_contains "error" result ;;
  if has_error then
    e <- py_getitem result "error" ;;
    match e with
    | VStr message => ret (create_error request_id (-32000) message)
    | _ => ret (create_response request_id result)
    end
  else ret (create_response request_id result).

(** The [try] block of [process_request]: run the handler, wrap its
    result, and turn any exception into an error envelope. *)
Definition call_handler (request_id : value) (handler : value -> M value)
    (params : value) : M value :=
  try_except
    (result <- handler params ;;
     envelope_of_result request_id result)
    (fun e => ret (create_error request_id (-32000) (str_exc e))).

(** [None] for a notification, the response envelope for a request. *)
Definition process_request (request : value) : M (option value) :=
  request_id <- py_get request "id" VNone ;;
  method <- py_get request "method" (VStr "") ;;
  p <- py_get request "params" VNone ;;
  let params := py_or p (VDict []) in
  let is_notification := is_None request_id in
  if is_notification then
    if py_eq_str method "notifications/initialized" then ret None
    else
      known <- py_startswith method "notifications/" ;;
      if known then ret None else ret None
  else
    handler <- METHOD_HANDLERS_get method ;;
    match handler with
    | None =>
        ret (Some (create_error request_id (-32601)
                     ("Method not found: " ++ py_str method)))
    | Some h =>
        response <- call_handler request_id h params ;;
        ret (Some response)
    end.

(** ** stdio mode *)

(** A run of the read loop: the lines printed, the exception that ended
    the loop if one escaped, and the remote calls made. *)
Record stdio_run : Type := {
  stdout : list string;
  uncaught : option exn;
  history : list remote_call
}.

(** [print(line, flush=True)] ahead of the rest of the run. *)
Definition print (line : string) (r : stdio_run) : stdio_run :=
  {| stdout := line :: stdout r; uncaught := uncaught r; history := history r |}.

Fixpoint run_stdio (stdin : list string) (calls : list remote_call) : stdio_run :=
  match stdin with
  | [] => {| stdout := []; uncaught := None; history := calls |}
  | line :: rest =>
      let line := py_strip line in
      if String.eqb line "" then run_stdio rest calls
      else
        match json_loads line with
        | LoadsRaised e =>
            {| stdout := []; uncaught := Some e; history := calls |}
        | Undecodable =>
            let response := create_error VNone (-32700) "Parse error" in
            print (json_dumps response) (run_stdio rest calls)
        | Decoded request =>
            match process_request request calls with
            | (inl e, calls') =>
                {| stdout := []; uncaught := Some e; history := calls' |}
            | (inr None, calls') => run_stdio rest calls'
            | (inr (Some response), calls') =>
                print (json_dumps response) (run_stdio rest calls')
            end
        end
  end.

(** ** Vocabulary of the statements *)

(** The value of an argument, or the handler's default when it is absent. *)
Definition arg (arguments : dict) (k : string) (default : value) : value :=
  match dict_get k arguments with Some v => v | None => default end.

(** Does an envelope (or any mapping) have the member [k]? *)
Definition has_member (k : string) (v : value) : bool :=
  match v with VDict d => dict_has k d | _ => false end.

Definition member (k : string) (v : value) : value :=
  match v with VDict d => arg d k VNone | _ => VNone end.

(** Values a dict lookup accepts as a key. *)
Definition hashable (v : value) : bool :=
  negb (isinstance_list v || isinstance_dict v).

(** What a client function hands to its caller for an outcome of the
    call: the body, or the [{"error": ...}] mapping. *)
Definition post_result (o : http_outcome) : value :=
  match o with
  | Responded body => body
  | Raised e => VDict [("error", VStr (exc_str e))]
  end.

Definition v3_post_result (o : http_outcome) : value :=
  match o with
  | Responded body => body
  | Raised e => VDict [("error", v3_error_detail e)]
  end.

(** The task-creation request of [generate_video] for an argument
    mapping, with the validated parameters. *)
Definition video_request (arguments : dict) : remote_call :=
  PostV3 "/v3/tasks"
    (VDict [("type", VStr "video");
            ("params",
             VDict (video_params
                      (arg arguments "prompt" (VStr ""))
                      (validate_duration (arg arguments "duration" (VInt 8)))
                      (validate_aspect_ratio (arg arguments "aspect_ratio" (VStr "16:9")))
                      (arg arguments "generate_audio" (VBool true))
                      (validate_resolution (arg arguments "resolution" (VStr "720p")))
                      (arg arguments "negative_prompt" (VStr ""))))]).

(** The fetch of [get_task] for an argument mapping. *)
Definition task_fetch (arguments : dict) : remote_call :=
  GetV3 ("/v3/tasks/" ++ py_str (arg arguments "task_id" (VStr ""))).

(** The three tools with a handler of their own. *)
Definition special_tools : list string :=
  ["generate_video"; "estimate_video_cost"; "get_task"].

(** The tool a [tools/call] request names: the [name] member of its
    params, "" when the params or the name are missing. *)
Definition requested_tool (request : dict) : value :=
  match py_or (arg request "params" VNone) (VDict []) with
  | VDict params => arg params "name" (VStr "")
  | _ => VStr ""
  end.

(** *** The task summary, in the words of the specification *)

(** The [result] mapping of a task document, empty when the member is
    absent, null or any other falsy value. *)
Definition task_result (response : dict) : value :=
  py_or (arg response "result" (VDict [])) (VDict []).

(** A task document of the expected shape: its result is a mapping and,
    when the items of the result are a non-empty list, the first item is a
    mapping. *)
Definition task_document_ok (response : dict) : bool :=
  match task_result response with
  | VDict result =>
      match arg result "items" (VList []) with
      | VList (first :: _) => isinstance_dict first
      | _ => true
      end
  | _ => false
  end.

Definition result_mapping (response : dict) : dict :=
  match task_result response with VDict result => result | _ => [] end.

Definition first_item (result : dict) : option dict :=
  match arg result "items" (VList []) with
  | VList (VDict first :: _) => Some first
  | _ => None
  end.

(** The URLs by kind: the first item's [audio_url]; [video_url] or else
    [output_url]; [image_url] or else [output_url] or else the first
    item's [image_url]. *)
Definition audio_url_of (response : dict) : value :=
  match first_item (result_mapping response) with
  | Some first => arg first "audio_url" VNone
  | None => VNone
  end.

Definition video_url_of (response : dict) : value :=
  let result := result_mapping response in
  py_or (arg result "video_url" VNone) (arg result "output_url" VNone).

Definition image_url_of (response : dict) : value :=
  let result := result_mapping response in
  let own := py_or (arg result "image_url" VNone) (arg result "output_url" VNone) in
  if truthy own then own
  else match first_item result with
       | Some first => arg first "image_url" VNone
       | None => own
       end.

(** The output-URL entry of a completed task: audio, then video, then
    image, by availability; none when no URL is available. *)
Definition url_entry (response : dict) : list string :=
  if truthy (audio_url_of response) then
    [LF ++ "🎵 Audio URL: " ++ py_str (audio_url_of response)]
  else if truthy (video_url_of response) then
    [LF ++ "🎬 Video URL: " ++ py_str (video_url_of response)]
  else if truthy (image_url_of response) then
    [LF ++ "🖼️ Image URL: " ++ py_str (image_url_of response)]
  else [].

Definition header_lines (task_id : value) (response : dict) : list string :=
  ["Task: " ++ py_str task_id;
   "Type: " ++ py_str (arg response "type" (VStr "unknown"));
   "Status: " ++ py_str (arg response "status" (VStr "unknown"));
   "Estimated Cost: $" ++ py_str (arg response "estimated_cost" (VStr "N/A"))].

(** The actual cost, listed when it is truthy and not "N/A". *)
Definition actual_cost_entry (response : dict) : list string :=
  let actual_cost := arg response "actual_cost" (VStr "N/A") in
  if truthy actual_cost && negb (py_eq_str actual_cost "N/A")
  then ["Actual Cost: $" ++ py_str actual_cost]
  else [].

(** The entry chosen by status. *)
Definition trailing_entry (response : dict) : list string :=
  let status := arg response "status" (VStr "unknown") in
  let error_message := arg response "error_message" VNone in
  if py_eq_str status "completed" then url_entry response
  else if py_eq_str status "failed" then
    if truthy error_message
    then [LF ++ "❌ Error: " ++ py_str error_message]
    else []
  else if py_in_strs status ["pending"; "queued"; "executing"] then
    [LF ++ "⏳ Task is still " ++ py_str status ++ ". Check again shortly."]
  else [].

Definition summary_text (task_id : value) (response : dict) : string :=
  join LF (header_lines task_id response ++
           actual_cost_entry response ++
           trailing_entry response)%list.

(** A computation that makes no remote call. *)
Definition pure {A : Type} (m : M A) : Prop :=
  forall calls, snd (m calls) = calls.

(** ** Basic facts *)

Lemma py_get_dict (d : dict) (k : string) (default : value) (calls : list remote_call) :
  py_get (VDict d) k default calls = (inr (arg d k default), calls).
Proof. reflexivity. Qed.

Lemma bind_ret {A B : Type} (a : A) (k : A -> M B) (calls : list remote_call) :
  bind (ret a) k calls = k a calls.
Proof. reflexivity. Qed.

Lemma bind_py_get {B : Type} (d : dict) (key : string) (default : value)
    (k : value -> M B) (calls : list remote_call) :
  bind (py_get (VDict d) key default) k calls = k (arg d key default) calls.
Proof. reflexivity. Qed.

Lemma bind_raise {A B : Type} (e : exn) (k : A -> M B) (calls : list remote_call) :
  bind (raise e) k calls = (inl e, calls).
Proof. reflexivity. Qed.

Lemma dict_get_set_same (k : string) (v : value) (d : dict) :
  dict_get k (dict_set k v d) = Some v.
Proof.
  induction d as [|[k' v'] d IH]; simpl.
  - now rewrite String.eqb_refl.
  - destruct (String.eqb k k') eqn:E; simpl; rewrite E; auto.
Qed.

Lemma dict_get_set_other (k k0 : string) (v : value) (d : dict) :
  k0 <> k -> dict_get k0 (dict_set k v d) = dict_get k0 d.
Proof.
  intros Hne. induction d as [|[k' v'] d IH]; simpl.
  - apply String.eqb_neq in Hne. now rewrite Hne.
  - destruct (String.eqb k k') eqn:E; simpl.
    + apply String.eqb_eq in E. subst k'.
      apply String.eqb_neq in Hne. now rewrite Hne.
    + destruct (String.eqb k0 k'); auto.
Qed.

Lemma arg_set_same (k : string) (v default : value) (d : dict) :
  arg (dict_set k v d) k default = v.
Proof. unfold arg. now rewrite dict_get_set_same. Qed.

Lemma arg_set_other (k k0 : string) (v default : value) (d : dict) :
  k0 <> k -> arg (dict_set k v d) k0 default = arg d k0 default.
Proof. intros H. unfold arg. now rewrite dict_get_set_other. Qed.

(** A validated duration is a number, so the cost table accepts it. *)
Lemma in_ints_hashable (v : value) (zs : list Z) :
  py_in_ints v zs = true -> hashable v = true.
Proof.
  unfold py_in_ints. intros H. apply existsb_exists in H.
  destruct H as [z [_ H]]. destruct v; simpl in H; try discriminate; reflexivity.
Qed.

Lemma validate_duration_allowed (d : value) :
  py_in_ints (validate_duration d) [4; 6; 8] = true.
Proof.
  unfold validate_duration.
  destruct (py_in_ints d [4; 6; 8]) eqn:E; simpl; auto.
Qed.

Lemma table_get_hashable (table : list (Z * value)) (key default : value)
    (calls : list remote_call) :
  hashable key = true ->
  exists cost, table_get table key default calls = (inr cost, calls).
Proof.
  intros H. destruct key; simpl in H; try discriminate; eexists; reflexivity.
Qed.

(** ** estimate_video_cost *)

Lemma estimate_video_cost_locals_ok (arguments : dict) (calls : list remote_call) :
  exists cost,
    estimate_video_cost_locals (VDict arguments) calls =
    (inr (validate_duration (arg arguments "duration" (VInt 8)), cost), calls).
Proof.
  unfold estimate_video_cost_locals.
  rewrite !bind_py_get.
  set (d := validate_duration _).
  set (table := if truthy _ then _ else _).
  destruct (table_get_hashable table d (VFloat float_4_80) calls) as [cost Hc].
  { apply in_ints_hashable with (zs := [4; 6; 8]). apply validate_duration_allowed. }
  exists cost. unfold bind. now rewrite Hc.
Qed.

(** C4.  For every argument mapping, [estimate_video_cost] makes no remote
    call and returns the unflagged result whose one text is the fixed
    text below, which contains "$1.96"; for duration 4 without audio the
    cost the handler looks up is 1.20, for duration 8 with audio 4.80, and
    the text is the same. *)
Theorem estimate_video_cost_fixed_text (arguments : dict) (calls : list remote_call) :
  let text :=
    "Video Generation Cost: $1.96 USD (fixed price)

Provider: Veo 3.1
Requires: Tier 2+" in
  _handle_estimate_video_cost (VDict arguments) calls =
    (inr (VDict [("content",
                  VList [VDict [("type", VStr "text"); ("text", VStr text)]])]),
     calls)
  /\ is_substring "$1.96" text = true
  /\ estimate_video_cost_locals
       (VDict [("duration", VInt 4); ("generate_audio", VBool false)]) calls =
     (inr (VInt 4, VFloat float_1_20), calls)
  /\ estimate_video_cost_locals
       (VDict [("duration", VInt 8); ("generate_audio", VBool true)]) calls =
     (inr (VInt 8, VFloat float_4_80), calls).
Proof.
  cbv zeta. repeat split; try reflexivity.
  unfold _handle_estimate_video_cost.
  destruct (estimate_video_cost_locals_ok arguments calls) as [cost H].
  unfold bind. now rewrite H.
Qed.

(** ** generate_video *)

Lemma generate_video_falsy_prompt (arguments : dict) (calls : list remote_call) :
  truthy (arg arguments "prompt" (VStr "")) = false ->
  _handle_generate_video (VDict arguments) calls =
  (inr (tool_error "Error: prompt is required"), calls).
Proof.
  intros H. unfold _handle_generate_video.
  rewrite !bind_py_get. now rewrite H.
Qed.

(** C7.  A [generate_video] call whose prompt is absent or the empty
    string returns the error-flagged result "Error: prompt is required"
    and leaves the history of remote calls as it was. *)
Theorem generate_video_requires_prompt (arguments : dict) (calls : list remote_call) :
  dict_get "prompt" arguments = None \/
  dict_get "prompt" arguments = Some (VStr "") ->
  _handle_generate_video (VDict arguments) calls =
    (inr (VDict [("isError", VBool true);
                 ("content",
                  VList [VDict [("type", VStr "text");
                                ("text", VStr "Error: prompt is required")]])]),
     calls).
Proof.
  intros H. apply generate_video_falsy_prompt.
  unfold arg. destruct H as [-> | ->]; reflexivity.
Qed.

(** ** Notifications *)

Lemma process_request_unfold_notification (request : dict) (calls : list remote_call) :
  is_None (arg request "id" VNone) = true ->
  process_request (VDict request) calls =
  (if py_eq_str (arg request "method" (VStr "")) "notifications/initialized"
   then ret None
   else known <- py_startswith (arg request "method" (VStr "")) "notifications/" ;;
        if known then ret None else ret None) calls.
Proof.
  intros H. unfold process_request. rewrite !bind_py_get. now rewrite H.
Qed.

Lemma notification_outcome (request : dict) (calls : list remote_call) :
  is_None (arg request "id" VNone) = true ->
  process_request (VDict request) calls = (inr None, calls) \/
  exists e, process_request (VDict request) calls = (inl e, calls).
Proof.
  intros H. rewrite (process_request_unfold_notification _ _ H).
  destruct (py_eq_str _ "notifications/initialized"); [now left|].
  destruct (arg request "method" (VStr "")); simpl;
    try (right; eexists; reflexivity).
  left. unfold bind; simpl. now destruct (prefix _ _).
Qed.

Lemma notification_str_method (request : dict) (calls : list remote_call) :
  is_None (arg request "id" VNone) = true ->
  isinstance_str (arg request "method" (VStr "")) = true ->
  process_request (VDict request) calls = (inr None, calls).
Proof.
  intros H Hm. rewrite (process_request_unfold_notification _ _ H).
  destruct (py_eq_str _ "notifications/initialized"); [reflexivity|].
  destruct (arg request "method" (VStr "")); try discriminate.
  unfold bind; simpl. now destruct (prefix _ _).
Qed.

(** C6.  A message without an [id] member gets no response: the
    dispatcher never returns an envelope and makes no remote call, the
    read loop prints nothing for its line, and when the method is a string
    (recognized or not) the dispatcher returns [None] and the loop goes on
    with the next line. *)
Theorem notification_gets_no_response (request : dict) (calls : list remote_call) :
  dict_get "id" request = None ->
  (forall response calls',
      process_request (VDict request) calls <> (inr (Some response), calls'))
  /\ snd (process_request (VDict request) calls) = calls
  /\ (forall line,
        py_strip line <> "" ->
        json_loads (py_strip line) = Decoded (VDict request) ->
        stdout (run_stdio [line] calls) = [])
  /\ (isinstance_str (arg request "method" (VStr "")) = true ->
      process_request (VDict request) calls = (inr None, calls)
      /\ forall line rest,
        py_strip line <> "" ->
        json_loads (py_strip line) = Decoded (VDict request) ->
        run_stdio (line :: rest) calls = run_stdio rest calls).
Proof.
  intros Hid.
  assert (Hn : is_None (arg request "id" VNone) = true)
    by (unfold arg; now rewrite Hid).
  repeat split.
  - intros response calls' Heq.
    destruct (notification_outcome request calls Hn) as [H | [e H]];
      rewrite H in Heq; discriminate.
  - destruct (notification_outcome request calls Hn) as [H | [e H]];
      now rewrite H.
  - intros line Hline Hjson. simpl.
    apply String.eqb_neq in Hline. rewrite Hline, Hjson.
    destruct (notification_outcome request calls Hn) as [H | [e H]];
      now rewrite H.
  - now apply notification_str_method.
  - intros line rest Hline Hjson. simpl.
    apply String.eqb_neq in Hline. rewrite Hline, Hjson.
    now rewrite (notification_str_method request calls Hn H).
Qed.

(** ** Requests *)

Lemma process_request_unfold_request (request : dict) (calls : list remote_call) :
  is_None (arg request "id" VNone) = false ->
  process_request (VDict request) calls =
  (handler <- METHOD_HANDLERS_get (arg request "method" (VStr "")) ;;
   match handler with
   | None =>
       ret (Some (create_error (arg request "id" VNone) (-32601)
                    ("Method not found: " ++
                     py_str (arg request "method" (VStr "")))))
   | Some h =>
       response <- call_handler (arg request "id" VNone) h
                     (py_or (arg request "params" VNone) (VDict [])) ;;
       ret (Some response)
   end) calls.
Proof.
  intros H. unfold process_request. rewrite !bind_py_get. now rewrite H.
Qed.

(** Whatever the handler does, the [try] block ends in one envelope. *)
Lemma call_handler_envelope (id : value) (h : value -> M value) (params : value)
    (calls : list remote_call) :
  exists response calls',
    call_handler id h params calls = (inr response, calls')
    /\ ((exists result, response = create_response id result)
        \/ (exists message, response = create_error id (-32000) message)).
Proof.
  unfold call_handler, try_except, bind, envelope_of_result.
  destruct (h params calls) as [[e | result] calls'].
  - do 2 eexists. split; [reflexivity | right; eexists; reflexivity].
  - unfold bind. destruct result; simpl;
      try (do 2 eexists; split; [reflexivity | right; eexists; reflexivity]).
    + destruct (is_substring "error" s); simpl;
        do 2 eexists; (split; [reflexivity|]);
        [right | left]; eexists; reflexivity.
    + destruct (existsb _ l); simpl;
        do 2 eexists; (split; [reflexivity|]);
        [right | left]; eexists; reflexivity.
    + unfold dict_has. destruct (dict_get "error" d) as [v|]; simpl.
      * destruct v; simpl; do 2 eexists; (split; [reflexivity|]);
          try (left; eexists; reflexivity).
        right; eexists; reflexivity.
      * do 2 eexists. split; [reflexivity | left; eexists; reflexivity].
Qed.

Lemma envelope_one_member (id : value) (response : value) :
  (exists result, response = create_response id result)
  \/ (exists code message, response = create_error id code message) ->
  member "id" response = id
  /\ xorb (has_member "result" response) (has_member "error" response) = true.
Proof.
  intros [[result ->] | [code [message ->]]]; split; reflexivity.
Qed.

(** C2 (amended).  A message whose [id] is present and not null, and
    whose method is not a list or a mapping, gets exactly one envelope:
    the dispatcher returns it, it carries the request's id and exactly one
    of the members [result] and [error], and the read loop prints it as
    one line before going on. *)
Theorem request_gets_one_envelope (request : dict) (id : value)
    (calls : list remote_call) :
  dict_get "id" request = Some id ->
  is_None id = false ->
  hashable (arg request "method" (VStr "")) = true ->
  exists response calls',
    process_request (VDict request) calls = (inr (Some response), calls')
    /\ member "id" response = id
    /\ xorb (has_member "result" response) (has_member "error" response) = true
    /\ forall line rest,
        py_strip line <> "" ->
        json_loads (py_strip line) = Decoded (VDict request) ->
        run_stdio (line :: rest) calls =
        print (json_dumps response) (run_stdio rest calls').
Proof.
  intros Hid Hnn Hm.
  assert (Harg : arg request "id" VNone = id) by (unfold arg; now rewrite Hid).
  assert (Hreq :
    exists response calls',
      process_request (VDict request) calls = (inr (Some response), calls')
      /\ ((exists result, response = create_response id result)
          \/ (exists code message, response = create_error id code message))).
  { rewrite process_request_unfold_request by now rewrite Harg.
    rewrite Harg.
    destruct (arg request "method" (VStr "")) as [| b | n | f | m | l | d] eqn:Em;
      simpl in Hm; try discriminate;
      try (cbn [METHOD_HANDLERS_get]; rewrite bind_ret;
           do 2 eexists; split; [reflexivity | right; do 2 eexists; reflexivity]).
    cbn [METHOD_HANDLERS_get]. rewrite bind_ret.
    destruct (table_find m METHOD_HANDLERS) as [h|].
    - destruct (call_handler_envelope id h
                  (py_or (arg request "params" VNone) (VDict [])) calls)
        as [response [calls' [Hc Hshape]]].
      exists response, calls'. split.
      + unfold bind. now rewrite Hc.
      + destruct Hshape as [Hs | [message Hs]]; [now left|].
        right. now exists (-32000), message.
    - do 2 eexists. split; [reflexivity | right; do 2 eexists; reflexivity]. }
  destruct Hreq as [response [calls' [Hp Hshape]]].
  exists response, calls'.
  destruct (envelope_one_member id response Hshape) as [H1 H2].
  repeat split; auto.
  intros line rest Hline Hjson. simpl.
  apply String.eqb_neq in Hline. now rewrite Hline, Hjson, Hp.
Qed.

(** ** Falsy params *)

Lemma table_find_handlers (m : string) (h : value -> M value) :
  table_find m METHOD_HANDLERS = Some h ->
  h = handle_initialize \/ h = handle_tools_list \/ h = handle_tools_call
  \/ h = handle_resources_list \/ h = handle_resources_read.
Proof.
  unfold METHOD_HANDLERS. simpl.
  repeat (match goal with
          | |- context [String.eqb m ?k] => destruct (String.eqb m k)
          end);
    intros H; inversion H; auto 6.
Qed.

(** ** Computations without remote calls *)

Lemma pure_ret {A : Type} (a : A) : pure (ret a).
Proof. intros calls. reflexivity. Qed.

Lemma pure_raise {A : Type} (e : exn) : pure (@raise A e).
Proof. intros calls. reflexivity. Qed.

Lemma pure_bind {A B : Type} (m : M A) (k : A -> M B) :
  pure m -> (forall a, pure (k a)) -> pure (bind m k).
Proof.
  intros Hm Hk calls. unfold bind.
  specialize (Hm calls). destruct (m calls) as [[e | a] calls']; simpl in *.
  - exact Hm.
  - rewrite Hk. exact Hm.
Qed.

Lemma pure_try_except {A : Type} (m : M A) (h : exn -> M A) :
  pure m -> (forall e, pure (h e)) -> pure (try_except m h).
Proof.
  intros Hm Hh calls. unfold try_except.
  specialize (Hm calls). destruct (m calls) as [[e | a] calls']; simpl in *.
  - rewrite Hh. exact Hm.
  - exact Hm.
Qed.

Lemma pure_py_get (obj : value) (k : string) (default : value) :
  pure (py_get obj k default).
Proof. destruct obj; intros calls; reflexivity. Qed.

Lemma pure_py_contains (s : string) (container : value) :
  pure (py_contains s container).
Proof. destruct container; intros calls; reflexivity. Qed.

Lemma pure_py_getitem (container : value) (s : string) :
  pure (py_getitem container s).
Proof.
  destruct container; intros calls; try reflexivity.
  simpl. now destruct (dict_get s d).
Qed.

Lemma pure_py_len (x : value) : pure (py_len x).
Proof. destruct x; intros calls; reflexivity. Qed.

Lemma pure_py_first (x : value) : pure (py_first x).
Proof. destruct x as [| | | | | [|v l] |]; intros calls; reflexivity. Qed.

Lemma pure_table_get (table : list (Z * value)) (key default : value) :
  pure (table_get table key default).
Proof. destruct key; intros calls; reflexivity. Qed.

Lemma pure_or_get (a obj : value) (k : string) : pure (or_get a obj k).
Proof. unfold or_get. destruct (truthy a); [apply pure_ret | apply pure_py_get]. Qed.

Create HintDb pure_db.

#[local] Hint Resolve pure_ret pure_raise pure_py_get pure_py_contains
  pure_py_getitem pure_py_len pure_py_first pure_table_get pure_or_get : pure_db.

(** Decompose a computation into its steps, each without a remote call. *)
Ltac pure_steps :=
  repeat first
    [ progress auto with pure_db
    | apply pure_bind; [| intros ? ]
    | apply pure_try_except; [| intros ? ]
    | match goal with
      | |- pure (if ?b then _ else _) => destruct b
      | |- pure (match ?x with _ => _ end) => destruct x
      end ].

Lemma pure_estimate_video_cost (arguments : value) :
  pure (_handle_estimate_video_cost arguments).
Proof. unfold _handle_estimate_video_cost, estimate_video_cost_locals. pure_steps. Qed.

Lemma pure_extract_urls (result : value) : pure (extract_urls result).
Proof. unfold extract_urls. pure_steps. Qed.

Lemma pure_envelope_of_result (id result : value) :
  pure (envelope_of_result id result).
Proof. unfold envelope_of_result. pure_steps. Qed.

(** The [try] block makes the remote calls of the handler and no other. *)
Lemma call_handler_history (id : value) (h : value -> M value) (params : value)
    (calls : list remote_call) :
  snd (call_handler id h params calls) = snd (h params calls).
Proof.
  unfold call_handler, try_except, bind.
  destruct (h params calls) as [[e | result] calls']; [reflexivity|].
  pose proof (pure_envelope_of_result id result calls') as Hp.
  destruct (envelope_of_result id result calls') as [[e | r] c2]; exact Hp.
Qed.

(** ** Remote calls of the handlers *)

Lemma make_request_run (endpoint : string) (payload : value)
    (calls : list remote_call) :
  make_request endpoint payload calls =
  (inr (post_result (remote calls (PostMcp endpoint (py_or payload (VDict []))))),
   (calls ++ [PostMcp endpoint (py_or payload (VDict []))])%list).
Proof.
  unfold make_request, bind, http, post_result.
  now destruct (remote calls _).
Qed.

Lemma pure_generate_video_reply (response d a r g : value) :
  pure (generate_video_reply response d a r g).
Proof. unfold generate_video_reply. pure_steps. Qed.

Lemma pure_get_task_reply (task_id response : value) :
  pure (get_task_reply task_id response).
Proof. unfold get_task_reply. pure_steps. Qed.

Lemma generate_video_run (arguments : dict) (calls : list remote_call) :
  truthy (arg arguments "prompt" (VStr "")) = true ->
  _handle_generate_video (VDict arguments) calls =
  generate_video_reply
    (v3_post_result (remote calls (video_request arguments)))
    (validate_duration (arg arguments "duration" (VInt 8)))
    (validate_aspect_ratio (arg arguments "aspect_ratio" (VStr "16:9")))
    (validate_resolution (arg arguments "resolution" (VStr "720p")))
    (arg arguments "generate_audio" (VBool true))
    (calls ++ [video_request arguments])%list.
Proof.
  intros Hp. unfold _handle_generate_video.
  rewrite !bind_py_get. rewrite Hp. cbn [negb].
  unfold make_v3_request, bind at 1 2, http.
  change (py_or (VDict ?d) (VDict [])) with (VDict d).
  fold (video_request arguments).
  unfold v3_post_result.
  now destruct (remote calls (video_request arguments)).
Qed.

Lemma get_task_run (arguments : dict) (calls : list remote_call) :
  truthy (arg arguments "task_id" (VStr "")) = true ->
  _handle_get_task (VDict arguments) calls =
  get_task_reply (arg arguments "task_id" (VStr ""))
    (post_result (remote calls (task_fetch arguments)))
    (calls ++ [task_fetch arguments])%list.
Proof.
  intros Hp. unfold _handle_get_task.
  rewrite !bind_py_get. rewrite Hp. cbn [negb].
  unfold make_v3_get_request, bind at 1 2, http.
  fold (task_fetch arguments).
  unfold post_result.
  now destruct (remote calls (task_fetch arguments)).
Qed.

(** A special handler either makes no call, or makes one call and turns
    its failure into an error-flagged result. *)
Lemma generate_video_failure (arguments : value) (calls : list remote_call) :
  snd (_handle_generate_video arguments calls) = calls
  \/ exists endpoint payload,
       snd (_handle_generate_video arguments calls) =
         (calls ++ [PostV3 endpoint payload])%list
       /\ forall e, remote calls (PostV3 endpoint payload) = Raised e ->
            _handle_generate_video arguments calls =
            (inr (tool_error ("Error: " ++ py_str (v3_error_detail e))),
             (calls ++ [PostV3 endpoint payload])%list).
Proof.
  destruct arguments as [| | | | | | d]; try (left; reflexivity).
  destruct (truthy (arg d "prompt" (VStr ""))) eqn:Hp.
  - right. rewrite (generate_video_run d calls Hp).
    unfold video_request. do 2 eexists. split.
    + apply pure_generate_video_reply.
    + intros e He. rewrite He. reflexivity.
  - left. now rewrite generate_video_falsy_prompt.
Qed.

Lemma get_task_failure (arguments : value) (calls : list remote_call) :
  snd (_handle_get_task arguments calls) = calls
  \/ exists endpoint,
       snd (_handle_get_task arguments calls) = (calls ++ [GetV3 endpoint])%list
       /\ forall e, remote calls (GetV3 endpoint) = Raised e ->
            _handle_get_task arguments calls =
            (inr (tool_error ("Error: " ++ exc_str e)),
             (calls ++ [GetV3 endpoint])%list).
Proof.
  destruct arguments as [| | | | | | d]; try (left; reflexivity).
  destruct (truthy (arg d "task_id" (VStr ""))) eqn:Hp.
  - right. rewrite (get_task_run d calls Hp).
    unfold task_fetch. eexists. split.
    + apply pure_get_task_reply.
    + intros e He. rewrite He. reflexivity.
  - left. unfold _handle_get_task. rewrite bind_py_get. now rewrite Hp.
Qed.

Lemma history_grows (calls : list remote_call) (c : remote_call) :
  (calls ++ [c])%list <> calls.
Proof.
  intros H. apply (f_equal (@length _)) in H.
  rewrite length_app in H. simpl in H. lia.
Qed.

Lemma last_call_inj (calls : list remote_call) (c c' : remote_call) :
  (calls ++ [c])%list = (calls ++ [c'])%list -> c = c'.
Proof. intros H. apply app_inv_head in H. now inversion H. Qed.

Lemma process_request_tools_call (request params : dict) (id : value)
    (calls : list remote_call) :
  dict_get "id" request = Some id ->
  is_None id = false ->
  dict_get "method" request = Some (VStr "tools/call") ->
  dict_get "params" request = Some (VDict params) ->
  params <> [] ->
  process_request (VDict request) calls =
  (response <- call_handler id handle_tools_call (VDict params) ;;
   ret (Some response)) calls.
Proof.
  intros Hid Hnn Hm Hp Hne.
  assert (Harg : arg request "id" VNone = id) by (unfold arg; now rewrite Hid).
  rewrite process_request_unfold_request by now rewrite Harg.
  rewrite Harg. unfold arg. rewrite Hm, Hp.
  destruct params as [|kv params]; [contradiction|]. reflexivity.
Qed.

Lemma call_handler_returned (id : value) (h : value -> M value)
    (params result : value) (calls calls' : list remote_call) :
  h params calls = (inr result, calls') ->
  call_handler id h params calls =
  try_except (envelope_of_result id result)
    (fun e => ret (create_error id (-32000) (str_exc e))) calls'.
Proof.
  intros H. unfold call_handler, try_except, bind. now rewrite H.
Qed.

Lemma process_request_tools_call_any (request : dict) (id : value)
    (calls : list remote_call) :
  dict_get "id" request = Some id ->
  is_None id = false ->
  dict_get "method" request = Some (VStr "tools/call") ->
  process_request (VDict request) calls =
  (response <- call_handler id handle_tools_call
                 (py_or (arg request "params" VNone) (VDict [])) ;;
   ret (Some response)) calls.
Proof.
  intros Hid Hnn Hm.
  assert (Harg : arg request "id" VNone = id) by (unfold arg; now rewrite Hid).
  rewrite process_request_unfold_request by now rewrite Harg.
  rewrite Harg.
  assert (Hmeth : arg request "method" (VStr "") = VStr "tools/call")
    by (unfold arg; now rewrite Hm).
  rewrite Hmeth. reflexivity.
Qed.

(** C1 (amended).  Take a [tools/call] request with a non-null id that
    made the remote call [c], and let that call fail with [e].  For a tool
    with a handler of its own the reply is the success envelope whose
    result has [isError] true and the one text "Error: " followed by the
    failure's message; for any other tool, a missing name included, the
    reply is the error envelope with code -32000 and the failure's text. *)
Theorem tools_call_remote_failure (request : dict) (id : value)
    (calls : list remote_call) (c : remote_call) (e : http_exc)
    (out : exn + option value) :
  dict_get "id" request = Some id ->
  is_None id = false ->
  dict_get "method" request = Some (VStr "tools/call") ->
  process_request (VDict request) calls = (out, (calls ++ [c])%list) ->
  remote calls c = Raised e ->
  if py_in_strs (requested_tool request) special_tools then
    out =
    inr (Some
           (VDict
              [("jsonrpc", VStr "2.0"); ("id", id);
               ("result",
                VDict
                  [("isError", VBool true);
                   ("content",
                    VList
                      [VDict
                         [("type", VStr "text");
                          ("text",
                           VStr ("Error: " ++
                                 py_str (match c with
                                         | PostV3 _ _ => v3_error_detail e
                                         | _ => VStr (exc_str e)
                                         end)))]])])]))
  else
    out =
    inr (Some
           (VDict
              [("jsonrpc", VStr "2.0"); ("id", id);
               ("error",
                VDict [("code", VInt (-32000));
                       ("message", VStr (exc_str e))])])).
Proof.
  intros Hid Hnn Hm Hrun Hfail.
  rewrite (process_request_tools_call_any request id calls Hid Hnn Hm) in Hrun.
  set (P := py_or (arg request "params" VNone) (VDict [])) in *.
  assert (Hhist : snd (handle_tools_call P calls) = (calls ++ [c])%list).
  { rewrite <- call_handler_history with (id := id).
    unfold bind in Hrun.
    destruct (call_handler id handle_tools_call P calls)
      as [[x | r] calls']; inversion Hrun; reflexivity. }
  assert (Hdone : forall result,
    handle_tools_call P calls = (inr result, (calls ++ [c])%list) ->
    try_except (envelope_of_result id result)
      (fun e => ret (create_error id (-32000) (str_exc e))) (calls ++ [c])%list =
    (match out with
     | inr (Some r) => inr r
     | _ => inl IndexError
     end, (calls ++ [c])%list) /\ exists r, out = inr (Some r)).
  { intros result Hres.
    unfold bind in Hrun.
    rewrite (call_handler_returned id _ _ _ _ _ Hres) in Hrun.
    destruct (try_except _ _ _) as [[x | r] calls'] eqn:E.
    - unfold try_except in E.
      destruct (envelope_of_result id result _) as [[y | r] c2];
        unfold ret in E; discriminate.
    - inversion Hrun; subst. split; [reflexivity | eauto]. }
  assert (HP : exists params, P = VDict params).
  { destruct P; try (exfalso; symmetry in Hhist;
                     now apply history_grows in Hhist).
    eauto. }
  destruct HP as [params HP].
  assert (Hn : arg params "name" (VStr "") = requested_tool request).
  { unfold requested_tool. fold P. now rewrite HP. }
  rewrite HP in Hhist, Hdone.
  set (name := requested_tool request) in *.
  unfold handle_tools_call in Hhist, Hdone.
  rewrite !bind_py_get in Hhist. rewrite Hn in Hhist.
  unfold py_in_strs, special_tools. cbn [existsb].
  destruct (py_eq_str name "generate_video") eqn:E1; cbn [orb].
  { destruct (generate_video_failure (arg params "arguments" (VDict [])) calls)
      as [H0 | [endpoint [payload [Hs Hf]]]].
    - rewrite H0 in Hhist. symmetry in Hhist. now apply history_grows in Hhist.
    - rewrite Hs in Hhist. apply last_call_inj in Hhist. subst c.
      specialize (Hf e Hfail).
      destruct (Hdone (tool_error ("Error: " ++ py_str (v3_error_detail e))))
        as [Henv [r Hr]].
      { rewrite !bind_py_get, Hn, E1. exact Hf. }
      subst out. inversion Henv. reflexivity. }
  destruct (py_eq_str name "estimate_video_cost") eqn:E2; cbn [orb].
  { rewrite pure_estimate_video_cost in Hhist.
    symmetry in Hhist. now apply history_grows in Hhist. }
  destruct (py_eq_str name "get_task") eqn:E3; cbn [orb].
  { destruct (get_task_failure (arg params "arguments" (VDict [])) calls)
      as [H0 | [endpoint [Hs Hf]]].
    - rewrite H0 in Hhist. symmetry in Hhist. now apply history_grows in Hhist.
    - rewrite Hs in Hhist. apply last_call_inj in Hhist. subst c.
      specialize (Hf e Hfail).
      destruct (Hdone (tool_error ("Error: " ++ exc_str e))) as [Henv [r Hr]].
      { rewrite !bind_py_get, Hn, E1, E2, E3. exact Hf. }
      subst out. inversion Henv. reflexivity. }
  rewrite make_request_run in Hhist. cbn [py_or truthy snd] in Hhist.
  apply last_call_inj in Hhist. subst c.
  destruct (Hdone (VDict [("error", VStr (exc_str e))])) as [Henv [r Hr]].
  { rewrite !bind_py_get, Hn, E1, E2, E3, make_request_run.
    cbn [py_or truthy]. now rewrite Hfail. }
  subst out. inversion Henv. reflexivity.
Qed.

(** ** The read loop *)

(** Reading [pre] and then [post] is reading their concatenation, unless
    an exception escapes while reading [pre]. *)
Lemma run_stdio_app (pre post : list string) (calls : list remote_call) :
  uncaught (run_stdio pre calls) = None ->
  run_stdio (pre ++ post) calls =
  {| stdout := (stdout (run_stdio pre calls) ++
                stdout (run_stdio post (history (run_stdio pre calls))))%list;
     uncaught := uncaught (run_stdio post (history (run_stdio pre calls)));
     history := history (run_stdio post (history (run_stdio pre calls))) |}.
Proof.
  revert calls. induction pre as [|line pre IH]; intros calls Hok.
  - simpl. now destruct (run_stdio post calls).
  - simpl in *. destruct (String.eqb (py_strip line) ""); [now apply IH|].
    destruct (json_loads (py_strip line)) as [request | | e].
    + destruct (process_request request calls) as [[e | [response|]] calls'].
      * discriminate.
      * simpl in Hok. rewrite (IH calls' Hok). reflexivity.
      * now apply IH.
    + simpl in Hok. rewrite (IH calls Hok). reflexivity.
    + discriminate.
Qed.

(** C8 (amended).  A non-blank line on which decoding raises
    [JSONDecodeError], read after any lines [pre] that let the loop go on,
    adds exactly one printed line, the
    parse-error envelope with id null and code -32700; no remote call is
    made for it and the loop reads the lines after it as it would have
    read them without it. *)
Theorem malformed_line_parse_error (pre rest : list string) (line : string)
    (calls : list remote_call) :
  py_strip line <> "" ->
  json_loads (py_strip line) = Undecodable ->
  uncaught (run_stdio pre calls) = None ->
  let before := run_stdio pre calls in
  let after := run_stdio rest (history before) in
  run_stdio (pre ++ line :: rest) calls =
    {| stdout :=
         (stdout before ++
          json_dumps
            (VDict [("jsonrpc", VStr "2.0"); ("id", VNone);
                    ("error", VDict [("code", VInt (-32700));
                                     ("message", VStr "Parse error")])])
          :: stdout after)%list;
       uncaught := uncaught after;
       history := history after |}.
Proof.
  intros Hline Hjson Hok before after.
  rewrite (run_stdio_app pre (line :: rest) calls Hok).
  fold before. simpl.
  apply String.eqb_neq in Hline. rewrite Hline, Hjson.
  reflexivity.
Qed.

(** ** Coercion of the video parameters *)






(** ** get_task *)

Lemma extract_urls_ok (response : dict) (calls : list remote_call) :
  task_document_ok response = true ->
  extract_urls (task_result response) calls =
  (inr (audio_url_of response, video_url_of response, image_url_of response),
   calls).
Proof.
  unfold task_document_ok, audio_url_of, video_url_of, image_url_of,
    result_mapping, first_item.
  destruct (task_result response) as [| | | | | | result]; try discriminate.
  intros Hok. unfold extract_urls.
  rewrite bind_py_get. unfold or_get at 1.
  fold (py_or (arg result "video_url" VNone) (arg result "output_url" VNone)).
  assert (Hor : forall a k (B : Type) (f : value -> M B) c,
    bind (if truthy a then ret a else py_get (VDict result) k VNone) f c =
    f (py_or a (arg result k VNone)) c).
  { intros a k B f c. unfold py_or. now destruct (truthy a). }
  rewrite Hor, bind_py_get. unfold or_get. rewrite Hor, bind_py_get.
  set (video := py_or (arg result "video_url" VNone) _).
  set (own := py_or (arg result "image_url" VNone) _).
  destruct (arg result "items" (VList []))
    as [| b | n | f | s | [|first items] | d] eqn:Ei;
    cbn [truthy isinstance_list andb];
    try (destruct first as [| | | | | | item]; try discriminate);
    try rewrite andb_false_r;
    try (rewrite bind_ret; now destruct (truthy own)).
  assert (Hlen : (0 <? Z.of_nat (length (VDict item :: items))) = true)
    by (apply Z.ltb_lt; simpl length; lia).
  unfold bind, py_len, py_first, ret. rewrite Hlen.
  cbn [py_get]. unfold ret. now destruct (truthy own).
Qed.

Lemma failed_is_not_pending (status : value) :
  py_eq_str status "failed" = true ->
  py_in_strs status ["pending"; "queued"; "executing"] = false.
Proof.
  destruct status; simpl; try discriminate.
  intros H. apply String.eqb_eq in H. now subst.
Qed.

Lemma task_lines_summary (task_id : value) (response : dict) :
  task_lines task_id
    (arg response "type" (VStr "unknown"))
    (arg response "status" (VStr "unknown"))
    (arg response "estimated_cost" (VStr "N/A"))
    (arg response "actual_cost" (VStr "N/A"))
    (arg response "error_message" VNone)
    (audio_url_of response) (video_url_of response) (image_url_of response) =
  (header_lines task_id response ++ actual_cost_entry response ++
   trailing_entry response)%list.
Proof.
  unfold task_lines, header_lines, actual_cost_entry, trailing_entry, url_entry,
    append.
  set (status := arg response "status" (VStr "unknown")).
  set (actual := arg response "actual_cost" (VStr "N/A")).
  destruct (truthy actual && negb (py_eq_str actual "N/A"));
    (destruct (py_eq_str status "completed");
     [ destruct (truthy (audio_url_of response));
       [| destruct (truthy (video_url_of response));
          [| destruct (truthy (image_url_of response))]]
     | destruct (py_eq_str status "failed") eqn:Ef;
       [ rewrite (failed_is_not_pending status Ef);
         destruct (truthy (arg response "error_message" VNone))
       | destruct (py_in_strs status ["pending"; "queued"; "executing"]) ] ]);
    cbn [andb app]; rewrite ?app_nil_r; reflexivity.
Qed.

Lemma get_task_reply_summary (task_id : value) (response : dict)
    (calls : list remote_call) :
  dict_has "error" response = false ->
  task_document_ok response = true ->
  get_task_reply task_id (VDict response) calls =
  (inr (tool_result (summary_text task_id response)), calls).
Proof.
  intros Herr Hok. unfold get_task_reply.
  unfold py_contains. rewrite bind_ret, Herr, !bind_py_get.
  fold (task_result response).
  unfold bind. rewrite (extract_urls_ok response calls Hok).
  unfold summary_text. now rewrite task_lines_summary.
Qed.

Lemma trailing_entry_at_most_one (response : dict) :
  (length (trailing_entry response) <= 1)%nat.
Proof.
  unfold trailing_entry, url_entry.
  repeat match goal with
         | |- context [if ?b then _ else _] => destruct b
         end; simpl; lia.
Qed.

(** C5 (amended).  For a fetch that returns a task document of the
    expected shape, the handler returns the unflagged result whose one
    text is the summary: the four lines task id, type, status,
    estimated cost, then the actual cost when it is truthy and not "N/A",
    then at most one entry chosen by status: for "completed" the URL entry
    of the first available of audio, video, image, and none when no URL is
    available; for "failed" the error entry when the error message is
    truthy; for "pending", "queued", "executing" the notice naming the
    status; nothing for any other status. *)
Theorem get_task_summary (arguments response : dict) (calls : list remote_call) :
  truthy (arg arguments "task_id" (VStr "")) = true ->
  remote calls (task_fetch arguments) = Responded (VDict response) ->
  dict_has "error" response = false ->
  task_document_ok response = true ->
  _handle_get_task (VDict arguments) calls =
    (inr (VDict
            [("content",
              VList
                [VDict
                   [("type", VStr "text");
                    ("text",
                     VStr
                       (join LF
                          (header_lines (arg arguments "task_id" (VStr ""))
                             response ++
                           actual_cost_entry response ++
                           trailing_entry response)%list))]])]),
     (calls ++ [task_fetch arguments])%list)
  /\ (length (trailing_entry response) <= 1)%nat.
Proof.
  intros Hid Hfetch Herr Hok. split.
  - rewrite (get_task_run arguments calls Hid), Hfetch. cbn [post_result].
    now rewrite get_task_reply_summary.
  - apply trailing_entry_at_most_one.
Qed.

(** C10.  When the fetched task document has no [result] member, or a
    null one, the handler works on the empty mapping: the three URLs it
    extracts are [None], nothing is raised, and the unflagged result
    whose one text is the summary with the task
    id, type, status and cost lines is returned, without a URL entry. *)
Theorem get_task_without_result (arguments response : dict)
    (calls : list remote_call) :
  truthy (arg arguments "task_id" (VStr "")) = true ->
  remote calls (task_fetch arguments) = Responded (VDict response) ->
  dict_has "error" response = false ->
  dict_get "result" response = None \/ dict_get "result" response = Some VNone ->
  task_result response = VDict []
  /\ (forall calls0,
        extract_urls (task_result response) calls0 =
        (inr (VNone, VNone, VNone), calls0))
  /\ url_entry response = []
  /\ _handle_get_task (VDict arguments) calls =
       (inr (VDict
               [("content",
                 VList
                   [VDict
                      [("type", VStr "text");
                       ("text",
                        VStr
                          (join LF
                             (header_lines (arg arguments "task_id" (VStr ""))
                                response ++
                              actual_cost_entry response ++
                              trailing_entry response)%list))]])]),
        (calls ++ [task_fetch arguments])%list).
Proof.
  intros Hid Hfetch Herr Hres.
  assert (Hempty : task_result response = VDict []).
  { unfold task_result, arg. destruct Hres as [-> | ->]; reflexivity. }
  assert (Hok : task_document_ok response = true).
  { unfold task_document_ok. now rewrite Hempty. }
  repeat split.
  - exact Hempty.
  - intros calls0. now rewrite Hempty.
  - unfold url_entry, audio_url_of, video_url_of, image_url_of, result_mapping.
    now rewrite Hempty.
  - rewrite (get_task_run arguments calls Hid), Hfetch. cbn [post_result].
    now rewrite get_task_reply_summary.
Qed.

(** ** Falsy params, continued *)

(** The remote call a routed method makes when its handler is given the
    empty mapping: the members the handler reads from params take their
    defaults. *)
Definition call_on_empty_params (m : string) : option remote_call :=
  if String.eqb m "initialize" then
    Some (PostMcp "/initialize"
            (VDict [("protocolVersion", VNone); ("capabilities", VDict []);
                    ("clientInfo", VDict [])]))
  else if String.eqb m "tools/list" then
    Some (PostMcp "/tools/list" (VDict []))
  else if String.eqb m "tools/call" then
    Some (PostMcp "/tools/call"
            (VDict [("name", VStr ""); ("arguments", VDict [])]))
  else if String.eqb m "resources/list" then
    Some (PostMcp "/resources/list" (VDict []))
  else if String.eqb m "resources/read" then
    Some (PostMcp "/resources/read" (VDict [("params", VDict [("uri", VNone)])]))
  else None.

Lemma handler_on_empty_params (m : string) (sent : remote_call) :
  call_on_empty_params m = Some sent ->
  exists h,
    table_find m METHOD_HANDLERS = Some h
    /\ forall calls,
        h (VDict []) calls =
        (inr (post_result (remote calls sent)), (calls ++ [sent])%list).
Proof.
  unfold call_on_empty_params.
  destruct (String.eqb m "initialize") eqn:E1.
  { apply String.eqb_eq in E1. subst m. intros H. inversion H. subst sent.
    eexists. split; [reflexivity|]. intros calls.
    unfold handle_initialize. rewrite !bind_py_get. now rewrite make_request_run. }
  destruct (String.eqb m "tools/list") eqn:E2.
  { apply String.eqb_eq in E2. subst m. intros H. inversion H. subst sent.
    eexists. split; [reflexivity|]. intros calls.
    unfold handle_tools_list. now rewrite make_request_run. }
  destruct (String.eqb m "tools/call") eqn:E3.
  { apply String.eqb_eq in E3. subst m. intros H. inversion H. subst sent.
    eexists. split; [reflexivity|]. intros calls.
    unfold handle_tools_call, make_request, bind, http, post_result. simpl.
    now destruct (remote calls _). }
  destruct (String.eqb m "resources/list") eqn:E4.
  { apply String.eqb_eq in E4. subst m. intros H. inversion H. subst sent.
    eexists. split; [reflexivity|]. intros calls.
    unfold handle_resources_list. now rewrite make_request_run. }
  destruct (String.eqb m "resources/read") eqn:E5.
  { apply String.eqb_eq in E5. subst m. intros H. inversion H. subst sent.
    eexists. split; [reflexivity|]. intros calls.
    unfold handle_resources_read. rewrite !bind_py_get.
    now rewrite make_request_run. }
  discriminate.
Qed.

(** C9 (amended).  When [params] is absent, null or any other falsy
    value, the message is processed exactly as the same message with
    [params] set to the empty mapping.  When moreover the id is present
    and not null and the method is one of the five routed ones, the
    matched handler is run on the empty mapping: the one remote call made
    is the handler's call with its defaults for absent params, and the
    reply is decided by the outcome of that call alone, so no exception
    from reading params reaches it. *)
Theorem falsy_params_as_empty_mapping (request : dict) (calls : list remote_call) :
  truthy (arg request "params" VNone) = false ->
  process_request (VDict request) calls =
    process_request (VDict (dict_set "params" (VDict []) request)) calls
  /\ (forall m h,
        table_find m METHOD_HANDLERS = Some h ->
        exists sent, call_on_empty_params m = Some sent)
  /\ (forall id m sent,
        dict_get "id" request = Some id ->
        is_None id = false ->
        dict_get "method" request = Some (VStr m) ->
        call_on_empty_params m = Some sent ->
        snd (process_request (VDict request) calls) = (calls ++ [sent])%list
        /\ (forall e,
              remote calls sent = Raised e ->
              fst (process_request (VDict request) calls) =
              inr (Some (VDict [("jsonrpc", VStr "2.0"); ("id", id);
                                ("error",
                                 VDict [("code", VInt (-32000));
                                        ("message", VStr (exc_str e))])])))
        /\ (forall body,
              remote calls sent = Responded (VDict body) ->
              fst (process_request (VDict request) calls) =
              inr (Some (match dict_get "error" body with
                         | Some (VStr message) =>
                             VDict [("jsonrpc", VStr "2.0"); ("id", id);
                                    ("error",
                                     VDict [("code", VInt (-32000));
                                            ("message", VStr message)])]
                         | _ =>
                             VDict [("jsonrpc", VStr "2.0"); ("id", id);
                                    ("result", VDict body)]
                         end)))).
Proof.
  intros Hp. split; [|split].
  - unfold process_request. rewrite !bind_py_get.
    rewrite arg_set_same, !(arg_set_other "params") by discriminate.
    unfold py_or at 1. now rewrite Hp.
  - intros m h Hh. unfold call_on_empty_params.
    unfold METHOD_HANDLERS in Hh. simpl in Hh.
    repeat match goal with
           | |- context [String.eqb m ?k] => destruct (String.eqb m k)
           end; eauto; discriminate.
  - intros id m sent Hid Hnn Hm Hsent.
    destruct (handler_on_empty_params m sent Hsent) as [h [Hfind Hh]].
    assert (Harg : arg request "id" VNone = id) by (unfold arg; now rewrite Hid).
    assert (Hrun :
      process_request (VDict request) calls =
      (response <-
         try_except (envelope_of_result id (post_result (remote calls sent)))
           (fun e => ret (create_error id (-32000) (str_exc e))) ;;
       ret (Some response)) (calls ++ [sent])%list).
    { rewrite process_request_unfold_request by now rewrite Harg.
      rewrite Harg. unfold arg at 1. rewrite Hm.
      cbn [METHOD_HANDLERS_get]. rewrite bind_ret, Hfind.
      unfold py_or. rewrite Hp. unfold bind at 1.
      now rewrite (call_handler_returned id h _ _ _ _ (Hh calls)). }
    rewrite Hrun. clear Hrun. split; [|split].
    + apply pure_bind; [| intros ?; apply pure_ret].
      apply pure_try_except;
        [apply pure_envelope_of_result | intros ?; apply pure_ret].
    + intros e He. rewrite He. reflexivity.
    + intros body Hb. rewrite Hb. cbn [post_result].
      unfold bind, try_except, envelope_of_result, py_contains, py_getitem,
        dict_has, bind.
      destruct (dict_get "error" body) as [v|]; [|reflexivity].
      now destruct v.
Qed.

(** * Further properties of the dispatcher and the handlers *)

(** ** Vocabulary *)

(** The five methods of the routing table. *)
Definition known_method (method : value) : bool :=
  match method with
  | VStr m =>
      existsb (String.eqb m)
        ["initialize"; "tools/list"; "tools/call"; "resources/list";
         "resources/read"]
  | _ => false
  end.

(** A computation that makes at most one remote call. *)
Definition at_most_one_call {A : Type} (m : M A) : Prop :=
  forall calls,
    snd (m calls) = calls \/ exists c, snd (m calls) = (calls ++ [c])%list.

(** The lines of the input the read loop does not skip. *)
Definition nonblank (stdin : list string) : list string :=
  filter (fun line => negb (String.eqb (py_strip line) "")) stdin.

(** ** Unknown methods *)

Lemma unknown_method_lookup (method : value) (calls : list remote_call) :
  hashable method = true ->
  known_method method = false ->
  METHOD_HANDLERS_get method calls = (inr None, calls).
Proof.
  intros Hh Hk.
  destruct method as [| b | n | f | m | l | d]; try reflexivity;
    try discriminate.
  simpl in Hk. unfold METHOD_HANDLERS_get, METHOD_HANDLERS, ret. simpl.
  repeat match goal with
         | H : context [String.eqb m ?k] |- _ =>
             destruct (String.eqb m k); simpl in H; try discriminate
         end.
  reflexivity.
Qed.

(** X1.  A request (id present and not null) whose method is a scalar
    other than the five routed names, the default "" of an absent method
    included, is answered with the error envelope -32601 "Method not
    found: <method>" and no remote call is made. *)
Theorem unknown_method_not_found (request : dict) (id : value)
    (calls : list remote_call) :
  dict_get "id" request = Some id ->
  is_None id = false ->
  hashable (arg request "method" (VStr "")) = true ->
  known_method (arg request "method" (VStr "")) = false ->
  process_request (VDict request) calls =
  (inr (Some (VDict [("jsonrpc", VStr "2.0"); ("id", id);
                     ("error",
                      VDict [("code", VInt (-32601));
                             ("message",
                              VStr ("Method not found: " ++
                                    py_str (arg request "method" (VStr ""))))])])),
   calls).
Proof.
  intros Hid Hnn Hh Hk.
  assert (Harg : arg request "id" VNone = id) by (unfold arg; now rewrite Hid).
  rewrite process_request_unfold_request by now rewrite Harg.
  unfold bind. rewrite (unknown_method_lookup _ calls Hh Hk).
  now rewrite Harg.
Qed.

(** ** Messages that are not mappings *)

(** X2.  A line that decodes to anything but a mapping (a list, a
    string, a number, true, false, null) makes the dispatcher raise
    [AttributeError] before any remote call; in stdio mode the exception
    ends the read loop: nothing is printed for the line and the lines
    after it are not read. *)
Theorem non_mapping_message_ends_loop (v : value) (line : string)
    (rest : list string) (calls : list remote_call) :
  isinstance_dict v = false ->
  py_strip line <> "" ->
  json_loads (py_strip line) = Decoded v ->
  process_request v calls = (inl (AttributeError (type_name v) "get"), calls)
  /\ run_stdio (line :: rest) calls =
     {| stdout := [];
        uncaught := Some (AttributeError (type_name v) "get");
        history := calls |}.
Proof.
  intros Hv Hline Hjson.
  assert (Hp : process_request v calls =
               (inl (AttributeError (type_name v) "get"), calls))
    by (destruct v; try discriminate; reflexivity).
  split; [exact Hp|].
  simpl. apply String.eqb_neq in Hline. now rewrite Hline, Hjson, Hp.
Qed.

(** ** Required arguments and error members *)

(** X3.  A [get_task] call whose task_id is absent or falsy (the empty
    string, null, 0) returns the error-flagged result "Error: task_id is
    required" and makes no remote call. *)
Theorem get_task_requires_task_id (arguments : dict) (calls : list remote_call) :
  truthy (arg arguments "task_id" (VStr "")) = false ->
  _handle_get_task (VDict arguments) calls =
  (inr (VDict [("isError", VBool true);
               ("content",
                VList [VDict [("type", VStr "text");
                              ("text", VStr "Error: task_id is required")]])]),
   calls).
Proof.
  intros H. unfold _handle_get_task. rewrite bind_py_get. now rewrite H.
Qed.


(** ** At most one remote call per message *)

Lemma pure_at_most_one {A : Type} (m : M A) : pure m -> at_most_one_call m.
Proof. intros H calls. left. apply H. Qed.

Lemma at_most_one_after_pure {A B : Type} (m : M A) (k : A -> M B) :
  pure m -> (forall a, at_most_one_call (k a)) -> at_most_one_call (bind m k).
Proof.
  intros Hm Hk calls. unfold bind.
  specialize (Hm calls). destruct (m calls) as [[e | a] calls']; simpl in *;
    subst calls'.
  - now left.
  - apply Hk.
Qed.

Lemma at_most_one_then_pure {A B : Type} (m : M A) (k : A -> M B) :
  at_most_one_call m -> (forall a, pure (k a)) -> at_most_one_call (bind m k).
Proof.
  intros Hm Hk calls. unfold bind.
  specialize (Hm calls). destruct (m calls) as [[e | a] calls']; simpl in *.
  - exact Hm.
  - rewrite (Hk a calls'). exact Hm.
Qed.

Lemma at_most_one_make_request (endpoint : string) (payload : value) :
  at_most_one_call (make_request endpoint payload).
Proof.
  intros calls. right. rewrite make_request_run. cbn [snd].
  eexists. reflexivity.
Qed.

Lemma at_most_one_generate_video (arguments : value) :
  at_most_one_call (_handle_generate_video arguments).
Proof.
  intros calls.
  destruct (generate_video_failure arguments calls) as [H | [ep [pl [H _]]]];
    [now left | right; eauto].
Qed.

Lemma at_most_one_get_task (arguments : value) :
  at_most_one_call (_handle_get_task arguments).
Proof.
  intros calls.
  destruct (get_task_failure arguments calls) as [H | [ep [H _]]];
    [now left | right; eauto].
Qed.

Lemma at_most_one_tools_call (params : value) :
  at_most_one_call (handle_tools_call params).
Proof.
  unfold handle_tools_call.
  apply at_most_one_after_pure; [apply pure_py_get | intros name].
  apply at_most_one_after_pure; [apply pure_py_get | intros arguments].
  destruct (py_eq_str name "generate_video");
    [apply at_most_one_generate_video|].
  destruct (py_eq_str name "estimate_video_cost");
    [apply pure_at_most_one, pure_estimate_video_cost|].
  destruct (py_eq_str name "get_task"); [apply at_most_one_get_task|].
  apply at_most_one_make_request.
Qed.

Lemma at_most_one_handlers (m : string) (h : value -> M value) (params : value) :
  table_find m METHOD_HANDLERS = Some h -> at_most_one_call (h params).
Proof.
  intros H.
  destruct (table_find_handlers m h H) as [-> | [-> | [-> | [-> | ->]]]].
  - unfold handle_initialize.
    repeat (apply at_most_one_after_pure; [apply pure_py_get | intros ?]).
    apply at_most_one_make_request.
  - apply at_most_one_make_request.
  - apply at_most_one_tools_call.
  - apply at_most_one_make_request.
  - unfold handle_resources_read.
    apply at_most_one_after_pure; [apply pure_py_get | intros ?].
    apply at_most_one_make_request.
Qed.

Lemma at_most_one_process_request (request : value) :
  at_most_one_call (process_request request).
Proof.
  unfold process_request.
  apply at_most_one_after_pure; [apply pure_py_get | intros id].
  apply at_most_one_after_pure; [apply pure_py_get | intros method].
  apply at_most_one_after_pure; [apply pure_py_get | intros p].
  cbv zeta. destruct (is_None id).
  - apply pure_at_most_one.
    destruct (py_eq_str method "notifications/initialized");
      [apply pure_ret|].
    destruct method; try apply pure_raise.
    apply pure_bind; [intros c; reflexivity | intros b].
    destruct b; apply pure_ret.
  - destruct method as [| b | n | f | m | l | d];
      try (apply pure_at_most_one; intros c; reflexivity).
    cbn [METHOD_HANDLERS_get]. intros calls. rewrite bind_ret.
    destruct (table_find m METHOD_HANDLERS) as [h|] eqn:Eh.
    + apply at_most_one_then_pure; [| intros ?; apply pure_ret].
      intros calls0. rewrite call_handler_history.
      exact (at_most_one_handlers m h _ Eh calls0).
    + now left.
Qed.

(** X5.  Whatever the message, the dispatcher keeps the calls made so
    far and adds at most one remote call to them. *)
Theorem dispatcher_makes_at_most_one_call (request : value)
    (calls : list remote_call) :
  exists made,
    snd (process_request request calls) = (calls ++ made)%list
    /\ (length made <= 1)%nat.
Proof.
  destruct (at_most_one_process_request request calls) as [H | [c H]].
  - exists []. rewrite app_nil_r. split; [exact H | simpl; lia].
  - exists [c]. split; [exact H | simpl; lia].
Qed.

(** ** Bounds on a run of the read loop *)

(** X6.  The read loop prints at most one line, and makes at most one
    remote call, per non-blank line of its input; the calls made before
    the run stay at the front of the history. *)
Theorem stdio_output_bounded (stdin : list string) (calls : list remote_call) :
  (length (stdout (run_stdio stdin calls)) <= length (nonblank stdin))%nat
  /\ exists made,
       history (run_stdio stdin calls) = (calls ++ made)%list
       /\ (length made <= length (nonblank stdin))%nat.
Proof.
  revert calls. induction stdin as [|line rest IH]; intros calls.
  - simpl. split; [lia|]. exists []. now rewrite app_nil_r.
  - simpl. destruct (String.eqb (py_strip line) "") eqn:Eb; simpl.
    + apply IH.
    + destruct (json_loads (py_strip line)) as [request | | x].
      * pose proof (at_most_one_process_request request calls) as Hone.
        destruct (process_request request calls)
          as [[e | [response|]] calls'] eqn:Ep; simpl in Hone.
        -- simpl. split; [lia|].
           destruct Hone as [-> | [c ->]].
           ++ exists []. rewrite app_nil_r. split; [reflexivity | simpl; lia].
           ++ exists [c]. split; [reflexivity | simpl; lia].
        -- destruct (IH calls') as [Hout [made [Hh Hm]]]. simpl.
           split; [lia|].
           destruct Hone as [-> | [c ->]].
           ++ exists made. split; [exact Hh | lia].
           ++ exists (c :: made). rewrite Hh, <- app_assoc.
              split; [reflexivity | simpl; lia].
        -- destruct (IH calls') as [Hout [made [Hh Hm]]].
           split; [lia|].
           destruct Hone as [-> | [c ->]].
           ++ exists made. split; [exact Hh | lia].
           ++ exists (c :: made). rewrite Hh, <- app_assoc.
              split; [reflexivity | simpl; lia].
      * destruct (IH calls) as [Hout [made [Hh Hm]]]. simpl.
        split; [lia|]. exists made. split; [exact Hh | lia].
      * simpl. split; [lia|]. exists []. rewrite app_nil_r.
        split; [reflexivity | simpl; lia].
Qed.

(** X7.  Once an exception has escaped the read loop, the lines that
    follow change nothing: they are not read, nothing more is printed and
    no further remote call is made. *)
Theorem stdio_stops_at_exception (pre post : list string) (e : exn)
    (calls : list remote_call) :
  uncaught (run_stdio pre calls) = Some e ->
  run_stdio (pre ++ post) calls = run_stdio pre calls.
Proof.
  revert calls. induction pre as [|line pre IH]; intros calls H.
  - discriminate.
  - simpl in *. destruct (String.eqb (py_strip line) ""); [now apply IH|].
    destruct (json_loads (py_strip line)) as [request | | x].
    + destruct (process_request request calls) as [[x | [response|]] calls'].
      * reflexivity.
      * simpl in H. now rewrite (IH calls' H).
      * now apply IH.
    + simpl in H. now rewrite (IH calls H).
    + reflexivity.
Qed.

(** ** Arguments and params that are not mappings *)

Lemma special_tool_cases (name : value) :
  py_in_strs name special_tools = true ->
  name = VStr "generate_video" \/ name = VStr "estimate_video_cost"
  \/ name = VStr "get_task".
Proof.
  destruct name as [| | | | s | |]; simpl; try discriminate.
  destruct (String.eqb s "generate_video") eqn:E1;
    [apply String.eqb_eq in E1; subst; auto|].
  destruct (String.eqb s "estimate_video_cost") eqn:E2;
    [apply String.eqb_eq in E2; subst; auto|].
  destruct (String.eqb s "get_task") eqn:E3;
    [apply String.eqb_eq in E3; subst; auto|].
  discriminate.
Qed.

(** X8.  A [tools/call] for one of the three special tools whose
    [arguments] member is present but not a mapping (null, a list, a
    string, a number) is answered with the error envelope -32000 carrying
    the text of the [AttributeError]; no remote call is made. *)
Theorem non_mapping_arguments_rejected (request params : dict)
    (id name arguments : value) (calls : list remote_call) :
  dict_get "id" request = Some id ->
  is_None id = false ->
  dict_get "method" request = Some (VStr "tools/call") ->
  dict_get "params" request = Some (VDict params) ->
  dict_get "name" params = Some name ->
  py_in_strs name special_tools = true ->
  dict_get "arguments" params = Some arguments ->
  isinstance_dict arguments = false ->
  process_request (VDict request) calls =
  (inr (Some (create_error id (-32000)
                (str_exc (AttributeError (type_name arguments) "get")))),
   calls).
Proof.
  intros Hid Hnn Hm Hp Hname Hsp Hargs Hnd.
  assert (Hne : params <> []) by (intros ->; discriminate).
  rewrite (process_request_tools_call request params id calls Hid Hnn Hm Hp Hne).
  unfold bind, call_handler, try_except, handle_tools_call, bind.
  rewrite !py_get_dict. unfold arg. rewrite Hname, Hargs.
  destruct (special_tool_cases name Hsp) as [-> | [-> | ->]];
    destruct arguments; try discriminate; reflexivity.
Qed.

(** X9.  A request for [initialize], [tools/call] or [resources/read]
    whose params are truthy but not a mapping (positional params, a
    string, a number) is answered with the error envelope -32000 carrying
    the text of the [AttributeError]; no remote call is made. *)
Theorem non_mapping_params_rejected (request : dict) (id p : value) (m : string)
    (calls : list remote_call) :
  dict_get "id" request = Some id ->
  is_None id = false ->
  dict_get "method" request = Some (VStr m) ->
  existsb (String.eqb m) ["initialize"; "tools/call"; "resources/read"] = true ->
  dict_get "params" request = Some p ->
  truthy p = true ->
  isinstance_dict p = false ->
  process_request (VDict request) calls =
  (inr (Some (create_error id (-32000)
                (str_exc (AttributeError (type_name p) "get")))),
   calls).
Proof.
  intros Hid Hnn Hm Hin Hp Ht Hnd.
  assert (Harg : arg request "id" VNone = id) by (unfold arg; now rewrite Hid).
  rewrite process_request_unfold_request by now rewrite Harg.
  rewrite Harg. unfold arg. rewrite Hm, Hp. unfold py_or. rewrite Ht.
  simpl in Hin.
  destruct (String.eqb m "initialize") eqn:E1;
    [apply String.eqb_eq in E1; subst m;
     destruct p; try discriminate; reflexivity|].
  destruct (String.eqb m "tools/call") eqn:E2;
    [apply String.eqb_eq in E2; subst m;
     destruct p; try discriminate; reflexivity|].
  destruct (String.eqb m "resources/read") eqn:E3;
    [apply String.eqb_eq in E3; subst m;
     destruct p; try discriminate; reflexivity|].
  discriminate.
Qed.

(** ** Forwarded methods *)


(** A value that supports neither [in] nor [.get]. *)
Definition is_container (v : value) : bool :=
  isinstance_str v || isinstance_list v || isinstance_dict v.

Lemma list_handler_run (id params : value) (h : value -> M value)
    (endpoint : string) (calls : list remote_call) :
  (h = handle_tools_list /\ endpoint = "/tools/list")
  \/ (h = handle_resources_list /\ endpoint = "/resources/list") ->
  call_handler id h params calls =
  try_except
    (envelope_of_result id
       (post_result (remote calls (PostMcp endpoint (VDict [])))))
    (fun e => ret (create_error id (-32000) (str_exc e)))
    (calls ++ [PostMcp endpoint (VDict [])])%list.
Proof.
  intros [[-> ->] | [-> ->]];
    unfold call_handler, try_except, bind at 1,
      handle_tools_list, handle_resources_list;
    now rewrite make_request_run.
Qed.

(** X11.  [tools/list] and [resources/list] never look at params: any
    request for them makes exactly one call, to the endpoint of the same
    name with the empty mapping as payload.  When the remote answers 2xx
    with a body that is null, a boolean or a number, the reply is the
    error envelope -32000 carrying the text of the [TypeError] raised by
    the ["error" in result] test. *)
Theorem list_methods_ignore_params (request : dict) (id : value) (m : string)
    (calls : list remote_call) :
  dict_get "id" request = Some id ->
  is_None id = false ->
  dict_get "method" request = Some (VStr m) ->
  m = "tools/list" \/ m = "resources/list" ->
  let sent := PostMcp ("/" ++ m) (VDict []) in
  snd (process_request (VDict request) calls) = (calls ++ [sent])%list
  /\ forall body,
      remote calls sent = Responded body ->
      is_container body = false ->
      fst (process_request (VDict request) calls) =
      inr (Some (create_error id (-32000)
                   (str_exc (TypeError "argument is not iterable"
                                       (type_name body))))).
Proof.
  intros Hid Hnn Hm Hcase sent. subst sent.
  assert (Harg : arg request "id" VNone = id) by (unfold arg; now rewrite Hid).
  assert (Hrun :
    process_request (VDict request) calls =
    (response <-
       try_except
         (envelope_of_result id
            (post_result (remote calls (PostMcp ("/" ++ m) (VDict [])))))
         (fun e => ret (create_error id (-32000) (str_exc e))) ;;
     ret (Some response)) (calls ++ [PostMcp ("/" ++ m) (VDict [])])%list).
  { rewrite process_request_unfold_request by now rewrite Harg.
    rewrite Harg. unfold arg at 1. rewrite Hm.
    cbn [METHOD_HANDLERS_get]. rewrite bind_ret.
    assert (Hh : exists h,
      table_find m METHOD_HANDLERS = Some h
      /\ ((h = handle_tools_list /\ "/" ++ m = "/tools/list")
          \/ (h = handle_resources_list /\ "/" ++ m = "/resources/list"))).
    { destruct Hcase as [-> | ->]; eexists; (split; [reflexivity|]); auto. }
    destruct Hh as [h [Hfind Hshape]]. rewrite Hfind.
    unfold bind.
    now rewrite (list_handler_run id _ h ("/" ++ m) calls Hshape). }
  rewrite Hrun. clear Hrun. split.
  - apply pure_bind; [| intros ?; apply pure_ret].
    apply pure_try_except; [apply pure_envelope_of_result | intros ?; apply pure_ret].
  - intros body Hr Hc. rewrite Hr. cbn [post_result].
    destruct body; try discriminate; reflexivity.
Qed.

(** ** The error detail of a failed task-creation request *)






(** ** The price of a validated duration *)

(** X14.  Whatever duration is given and whatever the audio flag, the
    cost looked up for the validated duration is an entry of the selected
    price table, for a key equal to that duration: the lookup never
    raises and its fallback amount is never used. *)
Theorem validated_duration_priced (duration generate_audio fallback : value)
    (calls : list remote_call) :
  let table :=
    if truthy generate_audio then VIDEO_COSTS_WITH_AUDIO
    else VIDEO_COSTS_NO_AUDIO in
  exists seconds cost,
    In (seconds, cost) table
    /\ py_eq_int (validate_duration duration) seconds = true
    /\ table_get table (validate_duration duration) fallback calls =
       (inr cost, calls).
Proof.
  intros table.
  pose proof (validate_duration_allowed duration) as Hin.
  pose proof (in_ints_hashable _ _ Hin) as Hh.
  set (d := validate_duration duration) in *.
  unfold py_in_ints in Hin. cbn [existsb] in Hin.
  assert (Hget : table_get table d fallback calls =
    (inr (match find (fun kv => py_eq_int d (fst kv)) table with
          | Some kv => snd kv
          | None => fallback
          end), calls))
    by (destruct d; try discriminate; reflexivity).
  rewrite Hget. subst table.
  destruct (truthy generate_audio);
    unfold VIDEO_COSTS_WITH_AUDIO, VIDEO_COSTS_NO_AUDIO; cbn [find fst snd];
    destruct (py_eq_int d 4) eqn:E4;
    [ do 2 eexists; split; [left; reflexivity | split; [exact E4 | reflexivity]]
    | destruct (py_eq_int d 6) eqn:E6;
      [ do 2 eexists; split;
        [right; left; reflexivity | split; [exact E6 | reflexivity]]
      | destruct (py_eq_int d 8) eqn:E8;
        [ do 2 eexists; split;
          [right; right; left; reflexivity | split; [exact E8 | reflexivity]]
        | discriminate ] ]
    | do 2 eexists; split; [left; reflexivity | split; [exact E4 | reflexivity]]
    | destruct (py_eq_int d 6) eqn:E6;
      [ do 2 eexists; split;
        [right; left; reflexivity | split; [exact E6 | reflexivity]]
      | destruct (py_eq_int d 8) eqn:E8;
        [ do 2 eexists; split;
          [right; right; left; reflexivity | split; [exact E8 | reflexivity]]
        | discriminate ] ] ].
Qed.

(** ** The message of a failed task *)

Lemma prefix_refl (a : string) : prefix a a = true.
Proof.
  induction a as [|c a IH]; simpl; [reflexivity|].
  destruct (ascii_dec c c) as [_ | Hne]; [exact IH | now elim Hne].
Qed.

Lemma is_substring_prefix (needle hay : string) :
  prefix needle hay = true -> is_substring needle hay = true.
Proof. intros H. destruct hay; cbn [is_substring]; now rewrite H. Qed.

Lemma is_substring_app_r (needle a b : string) :
  is_substring needle b = true -> is_substring needle (a ++ b) = true.
Proof.
  intros H. induction a as [|c a IH]; [exact H|].
  change (String c a ++ b) with (String c (a ++ b)).
  cbn [is_substring]. rewrite IH.
  now destruct (prefix needle (String c (a ++ b))).
Qed.

Lemma is_substring_last (needle sep : string) (parts : list string) (last : string) :
  is_substring needle last = true ->
  is_substring needle (join sep (parts ++ [last])%list) = true.
Proof.
  intros H. induction parts as [|p parts IH]; simpl; [exact H|].
  destruct (parts ++ [last])%list as [|q qs] eqn:E.
  - now destruct parts.
  - now apply is_substring_app_r, is_substring_app_r.
Qed.

(** X15.  For a fetched task whose status is "failed" and whose error
    message is a non-empty string, the one text of the returned result
    contains that message. *)
Theorem failed_task_shows_error_message (arguments response : dict)
    (message : string) (calls : list remote_call) :
  truthy (arg arguments "task_id" (VStr "")) = true ->
  remote calls (task_fetch arguments) = Responded (VDict response) ->
  dict_has "error" response = false ->
  task_document_ok response = true ->
  dict_get "status" response = Some (VStr "failed") ->
  dict_get "error_message" response = Some (VStr message) ->
  message <> "" ->
  exists text,
    _handle_get_task (VDict arguments) calls =
    (inr (VDict [("content",
                  VList [VDict [("type", VStr "text"); ("text", VStr text)]])]),
     (calls ++ [task_fetch arguments])%list)
    /\ is_substring message text = true.
Proof.
  intros Hid Hfetch Herr Hok Hst Hmsg Hne.
  eexists. split.
  - rewrite (get_task_run arguments calls Hid), Hfetch. cbn [post_result].
    now rewrite get_task_reply_summary.
  - unfold summary_text.
    assert (Htrail : exists mark,
      trailing_entry response = [LF ++ (mark ++ message)]).
    { unfold trailing_entry, arg. rewrite Hst, Hmsg.
      cbn [py_eq_str String.eqb Ascii.eqb Bool.eqb py_str truthy].
      apply String.eqb_neq in Hne. rewrite Hne. cbn [negb].
      eexists. reflexivity. }
    destruct Htrail as [mark ->].
    rewrite app_assoc. apply is_substring_last.
    apply is_substring_app_r, is_substring_app_r, is_substring_prefix.
    apply prefix_refl.
Qed.

(** * HTTP mode *)

(** [str(e)] of the [JSONDecodeError] raised for a body that does not
    decode. *)
Variable json_error_text : string -> string.

(** What a responder of [MCPHTTPHandler] sends: the status line, the
    headers it sets with [send_header], and the body.  Strings stand for
    byte strings here, so the length of a body is its length in bytes. *)
Record http_response : Type := {
  status : Z;
  headers : list (string * string);
  body : string
}.

Definition cors_headers : list (string * string) :=
  [("Access-Control-Allow-Origin", "*");
   ("Access-Control-Allow-Methods", "POST, OPTIONS");
   ("Access-Control-Allow-Headers", "Content-Type")].

Definition _send_json_response (data : value) (status : Z) : http_response :=
  let response_bytes := json_dumps data in
  {| status := status;
     headers :=
       ("Content-Type", "application/json")
       :: ("Content-Length", str_of_Z (Z.of_nat (String.length response_bytes)))
       :: cors_headers;
     body := response_bytes |}.

Definition do_OPTIONS : http_response :=
  {| status := 200; headers := cors_headers; body := "" |}.

Definition do_GET (path : string) : http_response :=
  if String.eqb path "/health" || String.eqb path "/" then
    _send_json_response
      (VDict [("status", VStr "ok"); ("server", VStr "VAP MCP Proxy");
              ("mode", VStr "http"); ("version", VStr "1.0.0")])
      200
  else _send_json_response (VDict [("error", VStr "Not found")]) 404.

(** [do_POST] on what reading the request gave: [inr body] for the body
    as a [str], [inl text] when reading the length header or the body, or
    decoding its bytes, raised an exception whose [str] is [text]. *)
Definition do_POST (received : string + string) (calls : list remote_call)
    : http_response * list remote_call :=
  match received with
  | inl text => (_send_json_response (create_error VNone (-32000) text) 500, calls)
  | inr body =>
      if String.eqb body "" then
        (_send_json_response (create_error VNone (-32700) "Empty request body") 400,
         calls)
      else
        match json_loads body with
        | LoadsRaised e =>
            (_send_json_response (create_error VNone (-32000) (str_exc e)) 500,
             calls)
        | Undecodable =>
            (_send_json_response
               (create_error VNone (-32700)
                  ("Parse error: " ++ json_error_text body))
               400,
             calls)
        | Decoded request =>
            match process_request request calls with
            | (inl e, calls') =>
                (_send_json_response (create_error VNone (-32000) (str_exc e)) 500,
                 calls')
            | (inr None, calls') =>
                (_send_json_response (VDict [("status", VStr "ok")]) 200, calls')
            | (inr (Some response), calls') =>
                (_send_json_response response 200, calls')
            end
        end
  end.

(** ** Properties of the HTTP mode *)


(** X16.  [do_POST] answers with status 200, 400 or 500.  A 400 carries
    the parse-error envelope (code -32700, id null) and is sent without
    any remote call; a 500 carries an error envelope with code -32000 and
    id null. *)
Theorem http_post_statuses (received : string + string)
    (calls : list remote_call) :
  let response := fst (do_POST received calls) in
  (status response = 200 \/ status response = 400 \/ status response = 500)
  /\ (status response = 400 ->
      snd (do_POST received calls) = calls
      /\ exists message,
           body response = json_dumps (create_error VNone (-32700) message))
  /\ (status response = 500 ->
      exists message,
        body response = json_dumps (create_error VNone (-32000) message)).
Proof.
  unfold do_POST. destruct received as [text | b]; cbn zeta.
  - simpl. repeat split; auto; try discriminate. eauto.
  - destruct (String.eqb b "").
    + simpl. repeat split; auto; try discriminate. eauto.
    + destruct (json_loads b) as [request | | x].
      * destruct (process_request request calls) as [[e | [r|]] calls'];
          simpl; repeat split; auto; try discriminate; eauto.
      * simpl. repeat split; auto; try discriminate. eauto.
      * simpl. repeat split; auto; try discriminate. eauto.
Qed.




(** X20.  Every response of the three responders carries the header
    [Access-Control-Allow-Origin: *], and every response of [do_GET] and
    [do_POST] declares as [Content-Length] the length of the body it
    sends. *)
Theorem http_responses_well_formed (path : string) (received : string + string)
    (calls : list remote_call) :
  let sent := [do_OPTIONS; do_GET path; fst (do_POST received calls)] in
  (forall r, In r sent -> In ("Access-Control-Allow-Origin", "*") (headers r))
  /\ (forall r, In r [do_GET path; fst (do_POST received calls)] ->
        In ("Content-Length", str_of_Z (Z.of_nat (String.length (body r))))
           (headers r)).
Proof.
  assert (Hsend : forall data st,
    In ("Access-Control-Allow-Origin", "*") (headers (_send_json_response data st))
    /\ In ("Content-Length",
           str_of_Z (Z.of_nat (String.length (body (_send_json_response data st)))))
          (headers (_send_json_response data st))).
  { intros data st. split; simpl; auto. }
  assert (Hget : exists data st, do_GET path = _send_json_response data st).
  { unfold do_GET. destruct (_ || _); eauto. }
  assert (Hpost : exists data st,
    fst (do_POST received calls) = _send_json_response data st).
  { unfold do_POST. destruct received as [text | b]; [simpl; eauto|].
    destruct (String.eqb b ""); [simpl; eauto|].
    destruct (json_loads b) as [request | | x]; [|simpl; eauto | simpl; eauto].
    destruct (process_request request calls) as [[e | [r|]] calls'];
      simpl; eauto. }
  destruct Hget as [d1 [s1 Hget]]. destruct Hpost as [d2 [s2 Hpost]].
  cbv zeta. split; intros r Hin; simpl in Hin.
  - destruct Hin as [<- | [<- | [<- | []]]].
    + simpl. auto.
    + rewrite Hget. apply Hsend.
    + rewrite Hpost. apply Hsend.
  - destruct Hin as [<- | [<- | []]].
    + rewrite Hget. apply Hsend.
    + rewrite Hpost. apply Hsend.
Qed.

End Proxy.

(** ** The program on concrete inputs *)

(** C1, counterexample.  A [tools/call] request for the generically
    forwarded tool [generate_image], with the remote answering 402: the
    reply is an error envelope with code -32000, not a success envelope
    with a flagged result. *)
Lemma generic_tool_failure_is_rpc_error :
  process_request Sample.remote_down Sample.repr Sample.exc_text
    (VDict (Sample.message (VInt 1) (VStr "tools/call")
              (Sample.tool_call "generate_image" [("prompt", VStr "a cat")])))
    [] =
  (inr (Some (VDict [("jsonrpc", VStr "2.0"); ("id", VInt 1);
                     ("error",
                      VDict [("code", VInt (-32000));
                             ("message",
                              VStr "Client error '402 Payment Required'")])])),
   [PostMcp "/tools/call"
      (Sample.tool_call "generate_image" [("prompt", VStr "a cat")])]).
Proof. reflexivity. Qed.

(** The same remote and a [generate_video] call: the failure comes back
    as a flagged result inside a success envelope. *)
Lemma tools_call_remote_failure_witness :
  fst (process_request Sample.remote_down Sample.repr Sample.exc_text
         (VDict (Sample.message (VInt 1) (VStr "tools/call")
                   (Sample.tool_call "generate_video" [("prompt", VStr "a cat")])))
         []) =
  inr (Some
         (VDict
            [("jsonrpc", VStr "2.0"); ("id", VInt 1);
             ("result",
              VDict
                [("isError", VBool true);
                 ("content",
                  VList
                    [VDict
                       [("type", VStr "text");
                        ("text", VStr "Error: Insufficient balance")]])])])).
Proof.
  apply (tools_call_remote_failure Sample.remote_down Sample.repr Sample.exc_text
           (Sample.message (VInt 1) (VStr "tools/call")
              (Sample.tool_call "generate_video" [("prompt", VStr "a cat")]))
           (VInt 1) []
           (video_request [("prompt", VStr "a cat")])
           Sample.payment_required);
    reflexivity.
Defined.

(** C2, counterexample.  A message whose [id] member is present and
    null: the dispatcher returns no envelope, and the read loop prints
    nothing for its line. *)
Lemma null_id_gets_no_response :
  process_request Sample.remote_down Sample.repr Sample.exc_text
    (VDict (Sample.message VNone (VStr "tools/list") (VDict []))) [] =
  (inr None, [])
  /\ stdout (run_stdio Sample.remote_down Sample.repr Sample.exc_text
               (fun _ => Decoded (VDict (Sample.message VNone (VStr "tools/list")
                                        (VDict []))))
               Sample.dumps Sample.strip ["line"] []) = [].
Proof. split; reflexivity. Qed.

(** An unknown method with id 7 gets its one envelope. *)
Lemma request_gets_one_envelope_witness :
  exists response calls',
    process_request Sample.remote_down Sample.repr Sample.exc_text
      (VDict (Sample.message (VInt 7) (VStr "foo/bar") VNone)) [] =
    (inr (Some response), calls')
    /\ member "id" response = VInt 7
    /\ xorb (has_member "result" response) (has_member "error" response) = true
    /\ forall line rest,
        Sample.strip line <> "" ->
        Sample.loads (Sample.strip line) =
          Decoded (VDict (Sample.message (VInt 7) (VStr "foo/bar") VNone)) ->
        run_stdio Sample.remote_down Sample.repr Sample.exc_text
          Sample.loads Sample.dumps Sample.strip (line :: rest) [] =
        print (Sample.dumps response)
          (run_stdio Sample.remote_down Sample.repr Sample.exc_text
             Sample.loads Sample.dumps Sample.strip rest calls').
Proof.
  apply (request_gets_one_envelope Sample.remote_down Sample.repr Sample.exc_text
           Sample.loads Sample.dumps Sample.strip
           (Sample.message (VInt 7) (VStr "foo/bar") VNone) (VInt 7) []);
    reflexivity.
Defined.


(** C5, counterexample.  A completed task without any URL gets no
    trailing line, and an actual cost that is present as 0 is not listed. *)
Lemma completed_task_without_url :
  _handle_get_task
    (Sample.remote_body (VDict [("status", VStr "completed"); ("type", VStr "video");
                                ("estimated_cost", VStr "1.96")]))
    Sample.repr (VDict [("task_id", VStr "t1")]) [] =
  (inr (tool_result
          ("Task: t1" ++ LF ++ "Type: video" ++ LF ++ "Status: completed" ++ LF ++
           "Estimated Cost: $1.96")),
   [GetV3 "/v3/tasks/t1"])
  /\ _handle_get_task
       (Sample.remote_body (VDict [("status", VStr "failed"); ("type", VStr "video");
                                   ("estimated_cost", VStr "1.96");
                                   ("actual_cost", VInt 0);
                                   ("error_message", VStr "quota exceeded")]))
       Sample.repr (VDict [("task_id", VStr "t1")]) [] =
     (inr (tool_result
             ("Task: t1" ++ LF ++ "Type: video" ++ LF ++ "Status: failed" ++ LF ++
              "Estimated Cost: $1.96" ++ LF ++ LF ++ "❌ Error: quota exceeded")),
      [GetV3 "/v3/tasks/t1"]).
Proof. split; reflexivity. Qed.

(** A completed music task whose first item carries an audio URL. *)
Lemma get_task_summary_witness :
  _handle_get_task
    (Sample.remote_body
       (VDict [("status", VStr "completed"); ("type", VStr "music");
               ("actual_cost", VInt 1);
               ("result",
                VDict [("items",
                        VList [VDict [("audio_url", VStr "https://x/a.mp3")]])])]))
    Sample.repr (VDict [("task_id", VStr "t1")]) [] =
  (inr (VDict
          [("content",
            VList
              [VDict
                 [("type", VStr "text");
                  ("text",
                   VStr "Task: t1
Type: music
Status: completed
Estimated Cost: $N/A
Actual Cost: $1

🎵 Audio URL: https://x/a.mp3")]])]),
   [GetV3 "/v3/tasks/t1"]).
Proof.
  apply (proj1 (get_task_summary
                  (Sample.remote_body
                     (VDict [("status", VStr "completed"); ("type", VStr "music");
                             ("actual_cost", VInt 1);
                             ("result",
                              VDict [("items",
                                      VList [VDict [("audio_url",
                                                     VStr "https://x/a.mp3")]])])]))
                  Sample.repr [("task_id", VStr "t1")] _ []
                  eq_refl eq_refl eq_refl eq_refl)).
Defined.

(** A notification whose method is the number 5: no call, no write. *)
Lemma notification_gets_no_response_witness :
  snd (process_request Sample.remote_down Sample.repr Sample.exc_text
         (VDict (Sample.notification (VInt 5))) []) = []
  /\ stdout (run_stdio Sample.remote_down Sample.repr Sample.exc_text
               (fun _ => Decoded (VDict (Sample.notification (VInt 5))))
               Sample.dumps Sample.strip ["line"] []) = [].
Proof.
  pose proof (notification_gets_no_response
                Sample.remote_down Sample.repr Sample.exc_text
                (fun _ => Decoded (VDict (Sample.notification (VInt 5))))
                Sample.dumps Sample.strip
                (Sample.notification (VInt 5)) [] eq_refl) as [_ [H1 [H2 _]]].
  split; [exact H1|].
  apply H2; [discriminate | reflexivity].
Defined.

(** An empty prompt with a valid duration. *)
Lemma generate_video_requires_prompt_witness :
  _handle_generate_video Sample.remote_down Sample.repr
    (VDict [("prompt", VStr ""); ("duration", VInt 4)]) [] =
  (inr (VDict [("isError", VBool true);
               ("content",
                VList [VDict [("type", VStr "text");
                              ("text", VStr "Error: prompt is required")]])]),
   []).
Proof.
  apply generate_video_requires_prompt. right. reflexivity.
Defined.

(** A notification, an undecodable line and a request with an unknown
    method: two lines are printed, the parse error first. *)
Lemma malformed_line_parse_error_witness :
  run_stdio Sample.remote_down Sample.repr Sample.exc_text
    Sample.loads Sample.dumps Sample.strip
    ["notification"; "{oops"; "request"] [] =
  {| stdout := ["error -32700"; "error -32601"]; uncaught := None; history := [] |}.
Proof.
  apply (malformed_line_parse_error
           Sample.remote_down Sample.repr Sample.exc_text
           Sample.loads Sample.dumps Sample.strip
           ["notification"] ["request"] "{oops" []);
    [discriminate | reflexivity | reflexivity].
Defined.

(** C8, counterexample.  A non-blank line of 2000 opening brackets does
    not decode, and [json.loads] raises [RecursionError] on it, which the
    read loop does not catch: nothing is printed, the loop ends, and the
    request on the next line is never read. *)
Lemma deeply_nested_line_ends_loop :
  run_stdio Sample.remote_down Sample.repr Sample.exc_text
    Sample.loads Sample.dumps Sample.strip
    [Sample.nested 2000; "request"] [] =
  {| stdout := []; uncaught := Some RecursionError; history := [] |}.
Proof. vm_compute. reflexivity. Qed.

(** C9, counterexample.  [tools/list] with null params and an id that is
    present and null: the dispatcher returns without running the handler,
    whose run on the empty mapping would have made a remote call. *)
Lemma null_id_runs_no_handler :
  process_request Sample.remote_down Sample.repr Sample.exc_text
    (VDict (Sample.message VNone (VStr "tools/list") VNone)) [] =
  (inr None, [])
  /\ snd (handle_tools_list Sample.remote_down (VDict []) []) =
     [PostMcp "/tools/list" (VDict [])].
Proof. split; reflexivity. Qed.

(** [initialize] with null params: the call carries the defaults of the
    handler, and its failure decides the reply. *)
Lemma falsy_params_as_empty_mapping_witness :
  snd (process_request Sample.remote_down Sample.repr Sample.exc_text
         (VDict (Sample.message (VInt 2) (VStr "initialize") VNone)) []) =
  [PostMcp "/initialize"
     (VDict [("protocolVersion", VNone); ("capabilities", VDict []);
             ("clientInfo", VDict [])])]
  /\ fst (process_request Sample.remote_down Sample.repr Sample.exc_text
            (VDict (Sample.message (VInt 2) (VStr "initialize") VNone)) []) =
     inr (Some (VDict [("jsonrpc", VStr "2.0"); ("id", VInt 2);
                       ("error",
                        VDict [("code", VInt (-32000));
                               ("message",
                                VStr "Client error '402 Payment Required'")])])).
Proof.
  pose proof (proj2 (proj2 (falsy_params_as_empty_mapping
                              Sample.remote_down Sample.repr Sample.exc_text
                              (Sample.message (VInt 2) (VStr "initialize") VNone)
                              [] eq_refl))
                (VInt 2) "initialize"
                (PostMcp "/initialize"
                   (VDict [("protocolVersion", VNone); ("capabilities", VDict []);
                           ("clientInfo", VDict [])]))
                eq_refl eq_refl eq_refl eq_refl) as [H1 [H2 _]].
  split; [exact H1 | exact (H2 Sample.payment_required eq_refl)].
Defined.

(** A queued task whose result is null. *)
Lemma get_task_without_result_witness :
  _handle_get_task
    (Sample.remote_body (VDict [("status", VStr "queued"); ("type", VStr "image");
                                ("result", VNone)]))
    Sample.repr (VDict [("task_id", VStr "t2")]) [] =
  (inr (VDict
          [("content",
            VList
              [VDict
                 [("type", VStr "text");
                  ("text",
                   VStr "Task: t2
Type: image
Status: queued
Estimated Cost: $N/A

⏳ Task is still queued. Check again shortly.")]])]),
   [GetV3 "/v3/tasks/t2"]).
Proof.
  apply (get_task_without_result
           (Sample.remote_body (VDict [("status", VStr "queued");
                                       ("type", VStr "image"); ("result", VNone)]))
           Sample.repr [("task_id", VStr "t2")] _ []
           eq_refl eq_refl eq_refl (or_intror eq_refl)).
Defined.

(** * The SDK client

    [sdk/vape_client]: the classification of HTTP responses by
    [VAPClient._handle_response] and image generation on top of it. *)
Module Sdk.

(** The exception classes of [exceptions.py]; all derive from [VAPError]. *)
Inductive error_class : Type :=
| VAPError
| VAPAuthenticationError
| VAPInsufficientBalanceError
| VAPRateLimitError
| VAPValidationError
| VAPServerError.

Record vap_exception : Type := {
  exc_class : error_class;
  message : string;
  status_code : Z;
  response : value
}.

(** [VAPError.__init__]: a falsy response is stored as [{}]. *)
Definition new_error (cls : error_class) (message : string) (status_code : Z)
    (response : value) : vap_exception :=
  {| exc_class := cls;
     message := message;
     status_code := status_code;
     response := py_or response (VDict []) |}.

(** An [httpx.Response]: the status code, [response.json()] ([None] when
    it raises) and [response.text]. *)
Record http_reply : Type := {
  reply_status : Z;
  reply_json : option value;
  reply_text : string
}.

Definition _handle_response (response : http_reply) : vap_exception + value :=
  let data :=
    match reply_json response with
    | Some d => d
    | None => VDict [("error", VStr (reply_text response))]
    end in
  if reply_status response =? 200 then inr data
  else if reply_status response =? 401 then
    inl (new_error VAPAuthenticationError "Authentication failed" 401 data)
  else if reply_status response =? 402 then
    inl (new_error VAPInsufficientBalanceError "Insufficient balance" 402 data)
  else if reply_status response =? 429 then
    inl (new_error VAPRateLimitError "Rate limit exceeded" 429 data)
  else if reply_status response =? 400 then
    inl (new_error VAPValidationError "Validation error" 400 data)
  else if 500 <=? reply_status response then
    inl (new_error VAPServerError "Server error" (reply_status response) data)
  else
    inl (new_error VAPError
           ("Request failed: " ++ str_of_Z (reply_status response))
           (reply_status response) data).

(** [models.GenerateResult] and its [from_response]. *)
Record GenerateResult : Type := {
  success : value;
  image_url : value;
  task_id : value;
  error : value
}.

(** How a client method ends: with a result, with a [VAPError], or with
    an exception of the interpreter. *)
Inductive outcome (A : Type) : Type :=
| Returned (a : A)
| RaisedVAP (e : vap_exception)
| RaisedPy (e : exn).

Arguments Returned {A} a.
Arguments RaisedVAP {A} e.
Arguments RaisedPy {A} e.

Definition GenerateResult_from_response (data : value) : outcome GenerateResult :=
  match data with
  | VDict d =>
      Returned {| success := arg d "success" (VBool false);
                  image_url := arg d "image_url" VNone;
                  task_id := arg d "task_id" VNone;
                  error := arg d "error" VNone |}
  | _ => RaisedPy (AttributeError (type_name data) "get")
  end.

(** The payload of [generate]: [style] is added when it is truthy. *)
Definition generate_payload (prompt aspect_ratio style : value) : dict :=
  let payload := [("prompt", prompt); ("aspect_ratio", aspect_ratio)] in
  if truthy style then dict_set "style" style payload else payload.

Section Client.

(** The server: the reply to a request (method, endpoint, JSON body).
    A transport failure, which escapes the client as an exception of the
    HTTP library, is left out. *)
Variable server : string -> string -> option value -> http_reply.

Definition _request (method endpoint : string) (json : option value)
    : vap_exception + value :=
  _handle_response (server method endpoint json).

Definition generate (prompt aspect_ratio style : value) : outcome GenerateResult :=
  let payload := generate_payload prompt aspect_ratio style in
  match _request "POST" "/v3/generate" (Some (VDict payload)) with
  | inl e => RaisedVAP e
  | inr data => GenerateResult_from_response data
  end.

(** X21.  [_handle_response] returns only for status 200, and then the
    decoded body, or [{"error": text}] when the body does not decode.
    Every other status, 201 and 204 included, raises an exception that
    records the status and the same data ([{}] when the data is falsy);
    its class is [VAPServerError] exactly for a status of 500 and above,
    and the base [VAPError] exactly for a status below 500 other than
    400, 401, 402 and 429. *)
Theorem handle_response_returns_only_200 (r : http_reply) :
  let data :=
    match reply_json r with
    | Some d => d
    | None => VDict [("error", VStr (reply_text r))]
    end in
  (reply_status r = 200 -> _handle_response r = inr data)
  /\ (reply_status r <> 200 ->
      exists e,
        _handle_response r = inl e
        /\ status_code e = reply_status r
        /\ response e = py_or data (VDict [])
        /\ (exc_class e = VAPServerError <-> 500 <= reply_status r)
        /\ (exc_class e = VAPError <->
            reply_status r < 500 /\ ~ In (reply_status r) [400; 401; 402; 429])).
Proof.
  cbv zeta. unfold _handle_response. split.
  - intros H. now rewrite H.
  - intros H.
    destruct (reply_status r =? 200) eqn:E200; [apply Z.eqb_eq in E200; lia|].
    destruct (reply_status r =? 401) eqn:E401;
      [apply Z.eqb_eq in E401; eexists; split; [reflexivity|]; simpl;
       repeat split; try discriminate; try lia; intros [_ Hn]; apply Hn;
       simpl; auto 6|].
    destruct (reply_status r =? 402) eqn:E402;
      [apply Z.eqb_eq in E402; eexists; split; [reflexivity|]; simpl;
       repeat split; try discriminate; try lia; intros [_ Hn]; apply Hn;
       simpl; auto 6|].
    destruct (reply_status r =? 429) eqn:E429;
      [apply Z.eqb_eq in E429; eexists; split; [reflexivity|]; simpl;
       repeat split; try discriminate; try lia; intros [_ Hn]; apply Hn;
       simpl; auto 6|].
    destruct (reply_status r =? 400) eqn:E400;
      [apply Z.eqb_eq in E400; eexists; split; [reflexivity|]; simpl;
       repeat split; try discriminate; try lia; intros [_ Hn]; apply Hn;
       simpl; auto 6|].
    apply Z.eqb_neq in E401, E402, E429, E400.
    destruct (500 <=? reply_status r) eqn:E500.
    + apply Z.leb_le in E500. eexists. split; [reflexivity|]. simpl.
      repeat split; try discriminate; try lia.
    + apply Z.leb_gt in E500. eexists. split; [reflexivity|]. simpl.
      repeat split; try discriminate; try lia.
Qed.

(** X22.  When the server answers an image generation with status 200
    and a body that does not decode, [generate] raises nothing: it
    returns a result with [success] false, no image URL, no task id, and
    the raw text of the body as [error]. *)
Theorem generate_undecodable_body (prompt aspect_ratio style : value)
    (text : string) :
  server "POST" "/v3/generate"
    (Some (VDict (generate_payload prompt aspect_ratio style))) =
    {| reply_status := 200; reply_json := None; reply_text := text |} ->
  generate prompt aspect_ratio style =
  Returned {| success := VBool false; image_url := VNone; task_id := VNone;
              error := VStr text |}.
Proof.
  intros H. unfold generate, _request. now rewrite H.
Qed.

End Client.

End Sdk.

(** * The further properties on concrete inputs *)

(** The unknown method "foo/bar" with id 7. *)
Lemma unknown_method_not_found_witness :
  process_request Sample.remote_down Sample.repr Sample.exc_text
    (VDict (Sample.message (VInt 7) (VStr "foo/bar") VNone)) [] =
  (inr (Some (VDict [("jsonrpc", VStr "2.0"); ("id", VInt 7);
                     ("error",
                      VDict [("code", VInt (-32601));
                             ("message", VStr "Method not found: foo/bar")])])),
   []).
Proof.
  apply (unknown_method_not_found Sample.remote_down Sample.repr Sample.exc_text
           (Sample.message (VInt 7) (VStr "foo/bar") VNone) (VInt 7) []);
    reflexivity.
Defined.

(** A line that decodes to the list [[1]], followed by another line. *)
Lemma non_mapping_message_ends_loop_witness :
  process_request Sample.remote_down Sample.repr Sample.exc_text
    (VList [VInt 1]) [] = (inl (AttributeError "list" "get"), [])
  /\ run_stdio Sample.remote_down Sample.repr Sample.exc_text
       (fun _ => Decoded (VList [VInt 1])) Sample.dumps Sample.strip
       ["first"; "second"] [] =
     {| stdout := []; uncaught := Some (AttributeError "list" "get");
        history := [] |}.
Proof.
  apply (non_mapping_message_ends_loop Sample.remote_down Sample.repr
           Sample.exc_text (fun _ => Decoded (VList [VInt 1])) Sample.dumps
           Sample.strip (VList [VInt 1]) "first" ["second"] []);
    [reflexivity | discriminate | reflexivity].
Defined.

(** [get_task] without arguments. *)
Lemma get_task_requires_task_id_witness :
  _handle_get_task Sample.remote_down Sample.repr (VDict []) [] =
  (inr (tool_error "Error: task_id is required"), []).
Proof.
  apply (get_task_requires_task_id Sample.remote_down Sample.repr [] []).
  reflexivity.
Defined.


(** A line that raises, followed by a request. *)
Lemma stdio_stops_at_exception_witness :
  run_stdio Sample.remote_down Sample.repr Sample.exc_text
    (fun _ => Decoded (VInt 5)) Sample.dumps Sample.strip
    (["first"] ++ ["second"])%list [] =
  run_stdio Sample.remote_down Sample.repr Sample.exc_text
    (fun _ => Decoded (VInt 5)) Sample.dumps Sample.strip ["first"] [].
Proof.
  apply (stdio_stops_at_exception Sample.remote_down Sample.repr Sample.exc_text
           (fun _ => Decoded (VInt 5)) Sample.dumps Sample.strip
           ["first"] ["second"] (AttributeError "int" "get") []).
  reflexivity.
Defined.

(** [get_task] with null arguments. *)
Lemma non_mapping_arguments_rejected_witness :
  process_request Sample.remote_down Sample.repr Sample.exc_text
    (VDict (Sample.message (VInt 3) (VStr "tools/call")
              (VDict [("name", VStr "get_task"); ("arguments", VNone)]))) [] =
  (inr (Some (create_error (VInt 3) (-32000)
                "'NoneType' object has no attribute 'get'")),
   []).
Proof.
  apply (non_mapping_arguments_rejected Sample.remote_down Sample.repr
           Sample.exc_text
           (Sample.message (VInt 3) (VStr "tools/call")
              (VDict [("name", VStr "get_task"); ("arguments", VNone)]))
           [("name", VStr "get_task"); ("arguments", VNone)]
           (VInt 3) (VStr "get_task") VNone []);
    reflexivity.
Defined.

(** [initialize] with positional params. *)
Lemma non_mapping_params_rejected_witness :
  process_request Sample.remote_down Sample.repr Sample.exc_text
    (VDict (Sample.message (VInt 1) (VStr "initialize") (VList [VStr "2024-11-05"])))
    [] =
  (inr (Some (create_error (VInt 1) (-32000)
                "'list' object has no attribute 'get'")),
   []).
Proof.
  apply (non_mapping_params_rejected Sample.remote_down Sample.repr
           Sample.exc_text
           (Sample.message (VInt 1) (VStr "initialize")
              (VList [VStr "2024-11-05"]))
           (VInt 1) (VList [VStr "2024-11-05"]) "initialize" []);
    reflexivity.
Defined.


(** [tools/list] with positional params, answered with the body null. *)
Lemma list_methods_ignore_params_witness :
  snd (process_request (Sample.remote_body VNone) Sample.repr Sample.exc_text
         (VDict (Sample.message (VInt 2) (VStr "tools/list") (VList [VInt 1])))
         []) =
  [PostMcp "/tools/list" (VDict [])]
  /\ fst (process_request (Sample.remote_body VNone) Sample.repr Sample.exc_text
            (VDict (Sample.message (VInt 2) (VStr "tools/list") (VList [VInt 1])))
            []) =
     inr (Some (create_error (VInt 2) (-32000)
                  "argument is not iterable: 'NoneType'")).
Proof.
  pose proof (list_methods_ignore_params
                (Sample.remote_body VNone) Sample.repr Sample.exc_text
                (Sample.message (VInt 2) (VStr "tools/list") (VList [VInt 1]))
                (VInt 2) "tools/list" []
                eq_refl eq_refl eq_refl (or_introl eq_refl)) as [H1 H2].
  split; [exact H1 | exact (H2 VNone eq_refl eq_refl)].
Defined.



(** A failed task with the message "quota exceeded". *)
Lemma failed_task_shows_error_message_witness :
  exists text,
    _handle_get_task
      (Sample.remote_body (VDict [("status", VStr "failed");
                                  ("error_message", VStr "quota exceeded")]))
      Sample.repr (VDict [("task_id", VStr "t1")]) [] =
    (inr (VDict [("content",
                  VList [VDict [("type", VStr "text"); ("text", VStr text)]])]),
     [GetV3 "/v3/tasks/t1"])
    /\ is_substring "quota exceeded" text = true.
Proof.
  apply (failed_task_shows_error_message
           (Sample.remote_body (VDict [("status", VStr "failed");
                                       ("error_message", VStr "quota exceeded")]))
           Sample.repr [("task_id", VStr "t1")]
           [("status", VStr "failed"); ("error_message", VStr "quota exceeded")]
           "quota exceeded" []);
    try reflexivity.
  discriminate.
Defined.




(** A 200 whose body is an HTML page. *)
Lemma generate_undecodable_body_witness :
  Sdk.generate
    (fun _ _ _ => {| Sdk.reply_status := 200; Sdk.reply_json := None;
                     Sdk.reply_text := "<html>" |})
    (VStr "A sunset") (VStr "16:9") VNone =
  Sdk.Returned {| Sdk.success := VBool false; Sdk.image_url := VNone;
                  Sdk.task_id := VNone; Sdk.error := VStr "<html>" |}.
Proof.
  apply Sdk.generate_undecodable_body. reflexivity.
Defined.
